(** * SecuRizon cost optimisation engine: [scripts/cost-optimization.py]

    A shallow embedding of the [CostOptimizer] class and of the properties
    its specification states.  Python values are an inductive type, dicts
    are association lists in insertion order, floats are the IEEE-754
    binary64 numbers of the kernel, an exception is a value of [result],
    and the two things the script does to the outside (calling AWS and
    printing) are an oracle record and an explicit [world]. *)

From Stdlib Require Import ZArith List String Bool Lia.
From Stdlib Require Import PrimFloat SpecFloat FloatOps.
Import ListNotations.
Open Scope string_scope.
Open Scope list_scope.
Open Scope Z_scope.

(** ** Python values *)

Set Warnings "-register-all".

Inductive pyval : Type :=
| VNone
| VBool (b : bool)
| VInt (z : Z)
| VFloat (f : float)
| VStr (s : string)
| VList (l : list pyval)
| VDict (d : list (string * pyval)).

(** Every dict of the script is keyed by strings. *)
Definition dict := list (string * pyval).

Fixpoint dict_get (d : dict) (k : string) : option pyval :=
  match d with
  | [] => None
  | (k', v) :: d' => if String.eqb k' k then Some v else dict_get d' k
  end.

(** [d[k] = v]: an existing key keeps its place, a new one goes last. *)
Fixpoint dict_set (d : dict) (k : string) (v : pyval) : dict :=
  match d with
  | [] => [(k, v)]
  | (k', v') :: d' =>
      if String.eqb k' k then (k', v) :: d' else (k', v') :: dict_set d' k v
  end.

Definition dict_keys (d : dict) : list string := map fst d.

(** ** Exceptions

    An instance of [Exception]: its class name and what [str(e)] gives.
    [KeyboardInterrupt] and [SystemExit], which [except Exception] lets
    through, are signals of the interpreter and are not modelled.  The
    messages follow CPython's, shortened where it names the function; no
    property below depends on their wording. *)

Record exn : Type := mk_exn { exc_type : string; exc_str : string }.

Definition KeyError_str (k : string) : exn := mk_exn "KeyError" ("'" ++ k ++ "'").
Definition KeyError_int0 : exn := mk_exn "KeyError" "0".
Definition IndexError (m : string) : exn := mk_exn "IndexError" m.
Definition TypeError (m : string) : exn := mk_exn "TypeError" m.
Definition AttributeError (m : string) : exn := mk_exn "AttributeError" m.
Definition ZeroDivisionError (m : string) : exn := mk_exn "ZeroDivisionError" m.
Definition OverflowError (m : string) : exn := mk_exn "OverflowError" m.

Inductive result (A : Type) : Type :=
| Ok (a : A)
| Raise (e : exn).
Arguments Ok {A} a.
Arguments Raise {A} e.

Definition bind {A B} (r : result A) (k : A -> result B) : result B :=
  match r with
  | Ok a => k a
  | Raise e => Raise e
  end.

Notation "x <- r ;; k" := (bind r (fun x => k))
  (at level 61, r at next level, right associativity).

Definition raises {A} (r : result A) : bool :=
  match r with Ok _ => false | Raise _ => true end.

(** ** Built-in operations the script uses *)

Definition type_name (v : pyval) : string :=
  match v with
  | VNone => "NoneType"
  | VBool _ => "bool"
  | VInt _ => "int"
  | VFloat _ => "float"
  | VStr _ => "str"
  | VList _ => "list"
  | VDict _ => "dict"
  end.

(** [bool(v)]: what [not v], [v or w] and [a if v else b] test. *)
Definition truthy (v : pyval) : bool :=
  match v with
  | VNone => false
  | VBool b => b
  | VInt z => negb (z =? 0)
  | VFloat f => negb (PrimFloat.eqb f 0%float)
  | VStr s => negb (String.eqb s "")
  | VList l => match l with [] => false | _ => true end
  | VDict d => match d with [] => false | _ => true end
  end.

Definition py_or (a b : pyval) : pyval := if truthy a then a else b.

Definition not_subscriptable {A} (v : pyval) : result A :=
  Raise (TypeError ("'" ++ type_name v ++ "' object is not subscriptable")).

(** [v['k']] for a literal string key. *)
Definition getitem_key (v : pyval) (k : string) : result pyval :=
  match v with
  | VDict d =>
      match dict_get d k with
      | Some x => Ok x
      | None => Raise (KeyError_str k)
      end
  | VList _ => Raise (TypeError "list indices must be integers or slices, not str")
  | VStr _ => Raise (TypeError "string indices must be integers, not 'str'")
  | _ => not_subscriptable v
  end.

(** [v[0]]. *)
Definition getitem_0 (v : pyval) : result pyval :=
  match v with
  | VList (x :: _) => Ok x
  | VList [] => Raise (IndexError "list index out of range")
  | VStr (String c _) => Ok (VStr (String c EmptyString))
  | VStr EmptyString => Raise (IndexError "string index out of range")
  | VDict _ => Raise KeyError_int0
  | _ => not_subscriptable v
  end.

(** [v.get('k', default)]: only a dict has the method. *)
Definition get_method (v : pyval) (k : string) (default : pyval) : result pyval :=
  match v with
  | VDict d =>
      match dict_get d k with
      | Some x => Ok x
      | None => Ok default
      end
  | _ => Raise (AttributeError ("'" ++ type_name v ++ "' object has no attribute 'get'"))
  end.

(** *** Numbers

    [int] is unbounded, [float] is binary64, [bool] counts as an [int]. *)

Inductive number : Type :=
| NInt (z : Z)
| NFloat (f : float).

Definition as_number (v : pyval) : option number :=
  match v with
  | VBool b => Some (NInt (if b then 1 else 0))
  | VInt z => Some (NInt z)
  | VFloat f => Some (NFloat f)
  | _ => None
  end.

Definition spec_of_Z (z : Z) : spec_float :=
  match z with
  | Z0 => S754_zero false
  | Zpos p => S754_finite false p 0
  | Zneg p => S754_finite true p 0
  end.

(** [float(z)], rounded to nearest even; too large an [int] raises. *)
Definition float_of_Z (z : Z) : result float :=
  let f := SF2Prim (binary_normalize prec emax z 0 false) in
  if PrimFloat.is_infinity f
  then Raise (OverflowError "int too large to convert to float")
  else Ok f.

Definition to_float (n : number) : result float :=
  match n with
  | NInt z => float_of_Z z
  | NFloat f => Ok f
  end.

Definition unsupported (op : string) (a b : pyval) : exn :=
  TypeError ("unsupported operand type(s) for " ++ op ++ ": '"
             ++ type_name a ++ "' and '" ++ type_name b ++ "'").

(** [a + b]. *)
Definition py_add (a b : pyval) : result pyval :=
  match as_number a, as_number b with
  | Some (NInt x), Some (NInt y) => Ok (VInt (x + y))
  | Some x, Some y =>
      fx <- to_float x ;; fy <- to_float y ;; Ok (VFloat (PrimFloat.add fx fy))
  | _, _ =>
      match a, b with
      | VStr s, VStr t => Ok (VStr (s ++ t))
      | VList l, VList m => Ok (VList (l ++ m))
      | _, _ => Raise (unsupported "+" a b)
      end
  end.

(** [a / b]: true division.  Two [int]s give the correctly rounded
    quotient; otherwise both sides are converted first. *)
Definition py_truediv (a b : pyval) : result pyval :=
  match as_number a, as_number b with
  | Some (NInt x), Some (NInt y) =>
      if y =? 0 then Raise (ZeroDivisionError "division by zero")
      else
        let q := SF2Prim (SFdiv prec emax (spec_of_Z x) (spec_of_Z y)) in
        if PrimFloat.is_infinity q
        then Raise (OverflowError "integer division result too large for a float")
        else Ok (VFloat q)
  | Some x, Some y =>
      fx <- to_float x ;; fy <- to_float y ;;
      if PrimFloat.eqb fy 0%float
      then Raise (ZeroDivisionError "float division by zero")
      else Ok (VFloat (PrimFloat.div fx fy))
  | _, _ => Raise (unsupported "/" a b)
  end.

(** [a * b] on numbers.  Its one use multiplies the float that [/] gave, so
    the repetition of a [str] or [list] is left out. *)
Definition py_mul (a b : pyval) : result pyval :=
  match as_number a, as_number b with
  | Some (NInt x), Some (NInt y) => Ok (VInt (x * y))
  | Some x, Some y =>
      fx <- to_float x ;; fy <- to_float y ;; Ok (VFloat (PrimFloat.mul fx fy))
  | _, _ => Raise (unsupported "*" a b)
  end.

(** ** The outside world

    The AWS calls answer or raise; what they answer is any value.  The
    relational-storage client is made once, in [__init__]; the streaming
    client is made inside [analyze_kafka_usage], by a call that can itself
    raise.  [utcnow_isoformat] is [datetime.utcnow().isoformat()]. *)

Record aws : Type := mk_aws {
  rds_describe_db_clusters : pyval -> result pyval;
  boto3_client_kafka : result (pyval -> result pyval);
  utcnow_isoformat : string
}.

(** What the process has printed, a line per [print], and the trace of the
    analyzers applied so far.  The script keeps no such list: an entry of
    the trace stands for the event of line 107, and only [invoke], which
    applies the analyzer, adds one. *)
Record world : Type := mk_world {
  stdout : list string;
  stderr : list string;
  calls : list ((pyval -> result pyval) * list pyval)
}.

Definition print (line : string) (w : world) : world :=
  mk_world (stdout w ++ [line]) (stderr w) (calls w).

Definition record_call (f : pyval -> result pyval) (args : list pyval)
    (w : world) : world :=
  mk_world (stdout w) (stderr w) (calls w ++ [(f, args)]).

(** ** CostOptimizer *)

Section CostOptimizer.

Variable self : aws.

(** [analyze_cluster_usage]: the two datetimes it computes are never read. *)
Definition analyze_cluster_usage (cluster_name : pyval) : result pyval :=
  let metrics :=
    VDict [("cpu_utilization", VFloat 0); ("memory_utilization", VFloat 0);
           ("pod_count", VInt 0)] in
  let recommendations := VList [] in
  Ok (VDict [("cluster", cluster_name);
             ("metrics", metrics);
             ("recommendations", recommendations);
             ("total_estimated_savings", VFloat 0)]).

(** The [try] block of [analyze_rds_usage]: the descriptor, or the mapping
    the method returns early. *)
Inductive rds_lookup : Type :=
| Found (cluster : pyval)
| Early (answer : pyval).

Definition rds_try (cluster_identifier : pyval) : rds_lookup :=
  let body :=
    clusters <- rds_describe_db_clusters self cluster_identifier ;;
    found <- getitem_key clusters "DBClusters" ;;
    if negb (truthy found)
    then Ok (Early (VDict [("error", VStr "Cluster not found")]))
    else
      again <- getitem_key clusters "DBClusters" ;;
      cluster <- getitem_0 again ;;
      Ok (Found cluster) in
  match body with
  | Ok l => l
  | Raise e => Early (VDict [("error", VStr (exc_str e))])
  end.

Definition analyze_rds_usage (cluster_identifier : pyval) : result pyval :=
  match rds_try cluster_identifier with
  | Early answer => Ok answer
  | Found cluster =>
      let storage_recommendation := VNone in
      storage_used <- get_method cluster "AllocatedStorage" (VInt 100) ;;
      let storage_free := VInt 0 in
      members <- getitem_key cluster "DBClusterMembers" ;;
      instance_class <-
        (if truthy members
         then
           members' <- getitem_key cluster "DBClusterMembers" ;;
           first <- getitem_0 members' ;;
           getitem_key first "DBInstanceClass"
         else Ok (VStr "unknown")) ;;
      Ok (VDict [("cluster", cluster_identifier);
                 ("instance_class", instance_class);
                 ("storage", VDict [("allocated_gb", storage_used);
                                    ("free_gb", storage_free);
                                    ("percent_free", VFloat 0)]);
                 ("replicas", VList []);
                 ("recommendations",
                  if truthy storage_recommendation
                  then VList [storage_recommendation] else VList [])])
  end.

Definition analyze_kafka_usage (cluster_arn : pyval) : result pyval :=
  msk <- boto3_client_kafka self ;;
  match msk cluster_arn with
  | Raise e => Ok (VDict [("error", VStr (exc_str e))])
  | Ok cluster =>
      info <- getitem_key cluster "ClusterInfo" ;;
      broker_count <- getitem_key info "NumberOfBrokerNodes" ;;
      Ok (VDict [("cluster", cluster_arn);
                 ("brokers", VDict [("count", broker_count)]);
                 ("recommendations", VList [])])
  end.

Definition get_total_cost : pyval := VFloat 0.

End CostOptimizer.

(** ** The report *)

(** An entry of [components]: the tag, the bound method, its arguments. *)
Definition component : Type := string * (pyval -> result pyval) * list pyval.

(** The call of [analyzer] on the unpacked [args]: each analyzer takes one
    argument besides [self]. *)
Definition call (analyzer : pyval -> result pyval) (args : list pyval) : result pyval :=
  match args with
  | [a] => analyzer a
  | [] => Raise (TypeError "missing 1 required positional argument")
  | _ => Raise (TypeError "takes 2 positional arguments but more were given")
  end.

(** The locals of [generate_cost_report] that the loop updates. *)
Record frame : Type := mk_frame {
  report : dict;
  total_potential_savings : pyval
}.

(** [report['optimizations'].append(entry)] *)
Definition append_optimization (r : dict) (entry : pyval) : result dict :=
  l <- getitem_key (VDict r) "optimizations" ;;
  match l with
  | VList es => Ok (dict_set r "optimizations" (VList (es ++ [entry])))
  | _ => Raise (AttributeError ("'" ++ type_name l ++ "' object has no attribute 'append'"))
  end.

Definition optimization_entry (component_type : string) (analysis : pyval) : pyval :=
  VDict [("component", VStr component_type); ("analysis", analysis)].

(** [analysis = analyzer( *args) ]: the application, and its entry in the
    trace. *)
Definition invoke (analyzer : pyval -> result pyval) (args : list pyval) (w : world)
    : result pyval * world :=
  (call analyzer args, record_call analyzer args w).

(** The body of the [try]: the frame it leaves, the exception if one was
    raised, and the world.  What was assigned before the exception stays
    assigned.  The sum is a number from the start, so its [+=] is [+]. *)
Definition try_body (c : component) (fr : frame) (w : world)
    : frame * option exn * world :=
  let '(component_type, analyzer, args) := c in
  let '(returned, w) := invoke analyzer args w in
  match returned with
  | Raise e => (fr, Some e, w)
  | Ok analysis =>
      match append_optimization (report fr) (optimization_entry component_type analysis) with
      | Raise e => (fr, Some e, w)
      | Ok r =>
          let fr' := mk_frame r (total_potential_savings fr) in
          match (s <- get_method analysis "total_estimated_savings" (VInt 0) ;;
                 py_add (total_potential_savings fr) s) with
          | Raise e => (fr', Some e, w)
          | Ok t => (mk_frame r t, None, w)
          end
      end
  end.

Definition error_line (component_type : string) (e : exn) : string :=
  "Error analyzing " ++ component_type ++ ": " ++ exc_str e.

(** One turn of the [for] loop: the [try] and its [except Exception]. *)
Definition loop_body (st : frame * world) (c : component) : frame * world :=
  let '(fr, w) := st in
  let '(component_type, _, _) := c in
  match try_body c fr w with
  | (fr', None, w') => (fr', w')
  | (fr', Some e, w') => (fr', print (error_line component_type e) w')
  end.

Definition priority_recommendations : pyval :=
  VDict [("high", VList []); ("medium", VList []); ("low", VList [])].

(** [total_potential_savings / (total_current_cost or 1) * 100] *)
Definition savings_percentage (savings cost : pyval) : result pyval :=
  q <- py_truediv savings (py_or cost (VInt 1)) ;;
  py_mul q (VInt 100).

Section Report.

Variable self : aws.

(** The list [components] of the source. *)
Definition components : list component :=
  [("eks", analyze_cluster_usage, [VStr "securazion-production"])].

Definition initial_report : dict :=
  [("timestamp", VStr (utcnow_isoformat self));
   ("time_range", VStr "LAST_30_DAYS");
   ("total_current_cost", get_total_cost);
   ("optimizations", VList [])].

(** What [generate_cost_report] does after the loop. *)
Definition finish_report (fr : frame) : result pyval :=
  let r := dict_set (report fr) "total_potential_savings" (total_potential_savings fr) in
  cost <- getitem_key (VDict r) "total_current_cost" ;;
  pct <- savings_percentage (total_potential_savings fr) cost ;;
  let r := dict_set r "savings_percentage" pct in
  let r := dict_set r "priority_recommendations" priority_recommendations in
  Ok (VDict r).

(** [generate_cost_report] with its list of components as an argument. *)
Definition generate_cost_report_over (cs : list component) (w : world)
    : result pyval * world :=
  let '(fr, w') := fold_left loop_body cs (mk_frame initial_report (VInt 0), w) in
  (finish_report fr, w').

Definition generate_cost_report : world -> result pyval * world :=
  generate_cost_report_over components.

(** The three analyzers of the class, as the loop can be given them. *)
Definition methods : list (pyval -> result pyval) :=
  [analyze_cluster_usage; analyze_rds_usage self; analyze_kafka_usage self].

End Report.

Definition empty_world : world := mk_world [] [] [].

(** ** Vocabulary of the properties *)

Definition analyzer_of (c : component) : pyval -> result pyval := snd (fst c).
Definition tag_of (c : component) : string := fst (fst c).
Definition args_of (c : component) : list pyval := snd c.

Definition outcome (c : component) : result pyval := call (analyzer_of c) (args_of c).

(** The component's analyzer is one of the three of the class. *)
Definition from_class (self : aws) (c : component) : Prop :=
  In (analyzer_of c) (methods self).

(** What the [try] does to the locals, the trace left aside. *)
Definition try_result (c : component) (fr : frame) : frame * option exn :=
  fst (try_body c fr empty_world).

(** The entry a component leaves in the report: none when its analyzer raises. *)
Definition entry_of (c : component) : list pyval :=
  match outcome c with
  | Ok analysis => [optimization_entry (tag_of c) analysis]
  | Raise _ => []
  end.

Definition entries (cs : list component) : list pyval := flat_map entry_of cs.

Definition completes (c : component) : bool := negb (raises (outcome c)).

(** The seven keys of the report, in the order the script sets them. *)
Definition report_keys : list string :=
  ["timestamp"; "time_range"; "total_current_cost"; "optimizations";
   "total_potential_savings"; "savings_percentage"; "priority_recommendations"].

(** The report while the loop runs, with the entries collected so far. *)
Definition report_so_far (self : aws) (es : list pyval) : dict :=
  [("timestamp", VStr (utcnow_isoformat self));
   ("time_range", VStr "LAST_30_DAYS");
   ("total_current_cost", get_total_cost);
   ("optimizations", VList es)].

Definition report_with (self : aws) (es : list pyval) (savings : pyval) : dict :=
  [("timestamp", VStr (utcnow_isoformat self));
   ("time_range", VStr "LAST_30_DAYS");
   ("total_current_cost", get_total_cost);
   ("optimizations", VList es);
   ("total_potential_savings", savings);
   ("savings_percentage", VFloat 0);
   ("priority_recommendations", priority_recommendations)].

(** The two zeros a sum of savings can be: the [int] it starts from and the
    [float] it becomes once a [0.0] has been added. *)
Definition zero (v : pyval) : Prop := v = VInt 0 \/ v = VFloat 0.

(** A mapping an analyzer returns in place of an analysis. *)
Definition is_error (v : pyval) : bool :=
  match v with
  | VDict d => match dict_get d "error" with Some _ => true | None => false end
  | _ => false
  end.

Definition field (v : pyval) (k : string) : option pyval :=
  match v with
  | VDict d => dict_get d k
  | _ => None
  end.

(** The shape the specification gives to every analysis result. *)
Definition documented_analysis (v : pyval) : Prop :=
  (exists id, field v "cluster" = Some id) /\
  (exists m, field v "metrics" = Some (VDict m)) /\
  (exists rs, field v "recommendations" = Some (VList rs)) /\
  field v "total_estimated_savings" = Some (VFloat 0).

(** ** Sample answers of AWS, for the examples *)

(** A member of a cluster as [describe_db_clusters] lists it. *)
Definition sample_member : pyval :=
  VDict [("DBInstanceIdentifier", VStr "orders-1");
         ("IsClusterWriter", VBool true);
         ("DBClusterParameterGroupStatus", VStr "in-sync");
         ("PromotionTier", VInt 1)].

Definition sample_descriptor (members : list pyval) : pyval :=
  VDict [("DBClusterIdentifier", VStr "orders");
         ("Engine", VStr "aurora-postgresql");
         ("DBClusterMembers", VList members)].

Definition sample_describe_db_clusters (id : pyval) : result pyval :=
  match id with
  | VStr "orders" => Ok (VDict [("DBClusters", VList [sample_descriptor [sample_member]])])
  | VStr "idle" => Ok (VDict [("DBClusters", VList [sample_descriptor []])])
  | VStr "gone" => Ok (VDict [("DBClusters", VList [])])
  | _ => Raise (mk_exn "DBClusterNotFoundFault" "DBCluster not found")
  end.

Definition sample_describe_cluster (arn : pyval) : result pyval :=
  match arn with
  | VStr "arn:aws:kafka:events" =>
      Ok (VDict [("ClusterInfo", VDict [("NumberOfBrokerNodes", VInt 3)])])
  | _ => Raise (mk_exn "NotFoundException" "The requested resource does not exist")
  end.

Definition sample_aws : aws :=
  mk_aws sample_describe_db_clusters (Ok sample_describe_cluster) "2024-05-01T12:00:00".

Definition sample_components : list component :=
  [("rds", analyze_rds_usage sample_aws, [VStr "orders"]);
   ("eks", analyze_cluster_usage, [VStr "securazion-production"]);
   ("msk", analyze_kafka_usage sample_aws, [VStr "arn:aws:kafka:events"])].

(** ** The script

    What the module needs from the interpreter.  [boto3_client name] is
    [boto3.client(name)]: the client, seen as the one call the script makes
    on it, or the exception its creation raises.  [json_dumps] is
    [json.dumps(_, indent=2)], which accepts every value of [pyval]. *)

Record runtime : Type := mk_runtime {
  boto3_client : string -> result (pyval -> result pyval);
  now_isoformat : string;
  json_dumps : pyval -> string
}.

(** [CostOptimizer.__init__]: the three clients are made in this order, and
    only the third is ever used.  The streaming client is not made here. *)
Definition CostOptimizer_init (rt : runtime) : result aws :=
  ce <- boto3_client rt "ce" ;;
  ec2 <- boto3_client rt "ec2" ;;
  rds <- boto3_client rt "rds" ;;
  Ok (mk_aws rds (boto3_client rt "kafka") (now_isoformat rt)).

(** The block under [if __name__ == "__main__"].  An exception that leaves
    it ends the process; the traceback the interpreter then writes is not
    part of the model. *)
Definition main (rt : runtime) (w : world) : result unit * world :=
  match CostOptimizer_init rt with
  | Raise e => (Raise e, w)
  | Ok optimizer =>
      match generate_cost_report optimizer w with
      | (Raise e, w') => (Raise e, w')
      | (Ok report, w') => (Ok tt, print (json_dumps rt report) w')
      end
  end.

(** ** More vocabulary *)

(** The line a component leaves on standard output: none when its analyzer
    returns. *)
Definition error_line_of (c : component) : list string :=
  match outcome c with
  | Ok _ => []
  | Raise e => [error_line (tag_of c) e]
  end.

Definition error_lines (cs : list component) : list string := flat_map error_line_of cs.

Definition invocation (c : component) : (pyval -> result pyval) * list pyval :=
  (analyzer_of c, args_of c).

(** The component completes and the savings read from its analysis are a float. *)
Definition float_savings (c : component) : bool :=
  match outcome c with
  | Ok analysis =>
      match get_method analysis "total_estimated_savings" (VInt 0) with
      | Ok (VFloat _) => true
      | _ => false
      end
  | Raise _ => false
  end.

(** The analysis can be added to the sum: it is a mapping, and the savings
    read from it add to [total]. *)
Definition summable (total analysis : pyval) : bool :=
  negb (raises (s <- get_method analysis "total_estimated_savings" (VInt 0) ;;
                py_add total s)).

Definition is_number (v : pyval) : bool :=
  match v with
  | VInt _ | VFloat _ => true
  | _ => false
  end.

Definition is_float (v : pyval) : bool :=
  match v with
  | VFloat _ => true
  | _ => false
  end.

(** ** More sample values *)

(** An analyzer that is not of the class: its savings are an [int] beyond
    the range of [float]. *)
Definition lavish_analyzer (name : pyval) : result pyval :=
  Ok (VDict [("cluster", name); ("total_estimated_savings", VInt (10 ^ 400))]).

(** An analyzer that is not of the class: it finds savings of 5.0. *)
Definition thrifty_analyzer (name : pyval) : result pyval :=
  Ok (VDict [("cluster", name); ("total_estimated_savings", VFloat 5)]).

(** An analyzer that is not of the class: it returns no mapping. *)
Definition careless_analyzer (name : pyval) : result pyval := Ok VNone.

(** An API whose answers are not what the script expects. *)
Definition odd_describe_db_clusters (id : pyval) : result pyval :=
  match id with
  | VStr "bare" => Ok (VDict [("ResponseMetadata", VDict [])])
  | VStr "null" => Ok (VDict [("DBClusters", VNone)])
  | _ => Ok (VDict [("DBClusters", VInt 7)])
  end.

Definition odd_aws : aws :=
  mk_aws odd_describe_db_clusters (Ok sample_describe_cluster) "2024-05-01T12:00:00".

(** A stand-in for [json.dumps] in the examples: the keys, comma separated. *)
Definition sample_dumps (v : pyval) : string :=
  match v with
  | VDict d => String.concat "," (dict_keys d)
  | _ => ""
  end.

(** A machine with no access to the streaming service. *)
Definition sample_runtime : runtime :=
  mk_runtime
    (fun name =>
       if String.eqb name "kafka"
       then Raise (mk_exn "NoCredentialsError" "Unable to locate credentials")
       else if String.eqb name "rds" then Ok sample_describe_db_clusters
       else Ok (fun _ => Ok VNone))
    "2024-05-01T12:00:00"
    sample_dumps.

(** A machine on which the billing client cannot be made. *)
Definition offline_runtime : runtime :=
  mk_runtime
    (fun name => Raise (mk_exn "NoRegionError" ("You must specify a region for " ++ name)))
    "2024-05-01T12:00:00"
    sample_dumps.

(** * Properties *)

(** ** The model at work *)

Example report_of_the_source :
  fst (generate_cost_report sample_aws empty_world)
  = Ok (VDict
          [("timestamp", VStr "2024-05-01T12:00:00");
           ("time_range", VStr "LAST_30_DAYS");
           ("total_current_cost", VFloat 0);
           ("optimizations",
            VList [VDict [("component", VStr "eks");
                          ("analysis",
                           VDict [("cluster", VStr "securazion-production");
                                  ("metrics",
                                   VDict [("cpu_utilization", VFloat 0);
                                          ("memory_utilization", VFloat 0);
                                          ("pod_count", VInt 0)]);
                                  ("recommendations", VList []);
                                  ("total_estimated_savings", VFloat 0)])]]);
           ("total_potential_savings", VFloat 0);
           ("savings_percentage", VFloat 0);
           ("priority_recommendations",
            VDict [("high", VList []); ("medium", VList []); ("low", VList [])])]).
Proof. vm_compute. reflexivity. Qed.

Example database_analysis_without_members :
  analyze_rds_usage sample_aws (VStr "idle")
  = Ok (VDict [("cluster", VStr "idle");
               ("instance_class", VStr "unknown");
               ("storage", VDict [("allocated_gb", VInt 100);
                                  ("free_gb", VInt 0);
                                  ("percent_free", VFloat 0)]);
               ("replicas", VList []);
               ("recommendations", VList [])]).
Proof. reflexivity. Qed.

Example database_analysis_with_a_member :
  analyze_rds_usage sample_aws (VStr "orders") = Raise (KeyError_str "DBInstanceClass").
Proof. reflexivity. Qed.

Example printed_by_the_sample_run :
  stdout (snd (generate_cost_report_over sample_aws sample_components empty_world))
  = ["Error analyzing rds: 'DBInstanceClass'"].
Proof. reflexivity. Qed.

Example true_division_rounds :
  py_truediv (VInt (2 ^ 53 + 3)) (VInt 1) = Ok (VFloat 9007199254740996) /\
  py_truediv (VInt 1) (VInt 0) = Raise (ZeroDivisionError "division by zero") /\
  py_truediv (VFloat 0) (VInt 1) = Ok (VFloat 0) /\
  py_add (VInt 0) (VFloat 0) = Ok (VFloat 0).
Proof. repeat split; vm_compute; reflexivity. Qed.

(** ** The analyzers *)

Lemma call_inv f args v :
  call f args = Ok v -> exists a, args = [a] /\ f a = Ok v.
Proof.
  destruct args as [|a [|b rest]]; simpl; try discriminate.
  intros H. exists a. split; [reflexivity | exact H].
Qed.

(** An early answer of [analyze_rds_usage] is an error mapping. *)
Lemma rds_try_early self id answer :
  rds_try self id = Early answer ->
  exists m, answer = VDict [("error", VStr m)].
Proof.
  unfold rds_try.
  destruct (rds_describe_db_clusters self id) as [clusters|e]; simpl.
  2:{ intros H. injection H as <-. eauto. }
  destruct (getitem_key clusters "DBClusters") as [found|e]; simpl.
  2:{ intros H. injection H as <-. eauto. }
  destruct (truthy found); simpl.
  2:{ intros H. injection H as <-. eauto. }
  destruct (getitem_0 found) as [cluster|e]; simpl.
  - discriminate.
  - intros H. injection H as <-. eauto.
Qed.

(** The descriptor the [try] block hands over is the first of [DBClusters]. *)
Lemma rds_try_found self id response cluster rest :
  rds_describe_db_clusters self id = Ok response ->
  getitem_key response "DBClusters" = Ok (VList (cluster :: rest)) ->
  rds_try self id = Found cluster.
Proof.
  intros Hd Hk. unfold rds_try. rewrite Hd. simpl. rewrite Hk. reflexivity.
Qed.

(** What a successful [analyze_rds_usage] returns when it is no error. *)
Lemma rds_analysis_shape self id v :
  analyze_rds_usage self id = Ok v -> is_error v = false ->
  exists instance_class allocated,
    v = VDict [("cluster", id);
               ("instance_class", instance_class);
               ("storage", VDict [("allocated_gb", allocated);
                                  ("free_gb", VInt 0);
                                  ("percent_free", VFloat 0)]);
               ("replicas", VList []);
               ("recommendations", VList [])].
Proof.
  unfold analyze_rds_usage.
  destruct (rds_try self id) as [cluster|answer] eqn:Ht.
  - destruct (get_method cluster "AllocatedStorage" (VInt 100)) as [used|e]; simpl;
      [|discriminate].
    destruct (getitem_key cluster "DBClusterMembers") as [members|e]; simpl;
      [|discriminate].
    match goal with
    | |- bind ?x _ = _ -> _ => destruct x as [ic|e]; simpl; [|discriminate]
    end.
    intros H _. injection H as <-. eauto.
  - intros H He. injection H as <-.
    apply rds_try_early in Ht. destruct Ht as [m ->]. discriminate He.
Qed.

(** What a successful [analyze_kafka_usage] returns when it is no error. *)
Lemma kafka_analysis_shape self arn v :
  analyze_kafka_usage self arn = Ok v -> is_error v = false ->
  exists count,
    v = VDict [("cluster", arn);
               ("brokers", VDict [("count", count)]);
               ("recommendations", VList [])].
Proof.
  unfold analyze_kafka_usage.
  destruct (boto3_client_kafka self) as [msk|e]; simpl; [|discriminate].
  destruct (msk arn) as [cluster|e].
  - destruct (getitem_key cluster "ClusterInfo") as [info|e]; simpl; [|discriminate].
    destruct (getitem_key info "NumberOfBrokerNodes") as [n|e]; simpl; [|discriminate].
    intros H _. injection H as <-. eauto.
  - intros H He. injection H as <-. discriminate He.
Qed.

(** Whatever an analyzer of the class returns, the report reads a zero as
    its savings. *)
Lemma method_savings self f a v :
  In f (methods self) -> f a = Ok v ->
  exists s, get_method v "total_estimated_savings" (VInt 0) = Ok s /\ zero s.
Proof.
  intros Hin Hf. destruct Hin as [<-|[<-|[<-|[]]]].
  - injection Hf as <-. exists (VFloat 0). split; [reflexivity | right; reflexivity].
  - destruct (is_error v) eqn:He.
    + destruct v as [| | | | | |d]; try discriminate He.
      unfold analyze_rds_usage in Hf.
      destruct (rds_try self a) as [cluster|answer] eqn:Ht.
      * exfalso. revert Hf He.
        destruct (get_method cluster "AllocatedStorage" (VInt 100)); simpl; [|discriminate].
        destruct (getitem_key cluster "DBClusterMembers"); simpl; [|discriminate].
        match goal with
        | |- bind ?x _ = _ -> _ => destruct x; simpl; [|discriminate]
        end.
        intros H. injection H as <-. discriminate.
      * injection Hf as ->. apply rds_try_early in Ht. destruct Ht as [m Hm].
        injection Hm as ->. exists (VInt 0). split; [reflexivity | left; reflexivity].
    + destruct (rds_analysis_shape _ _ _ Hf He) as (ic & al & ->).
      exists (VInt 0). split; [reflexivity | left; reflexivity].
  - destruct (is_error v) eqn:He.
    + unfold analyze_kafka_usage in Hf.
      destruct (boto3_client_kafka self) as [msk|e]; simpl in Hf; [|discriminate].
      destruct (msk a) as [cluster|e].
      * exfalso. revert Hf He.
        destruct (getitem_key cluster "ClusterInfo") as [info|e]; simpl; [|discriminate].
        destruct (getitem_key info "NumberOfBrokerNodes"); simpl; [|discriminate].
        intros H. injection H as <-. discriminate.
      * injection Hf as <-. exists (VInt 0). split; [reflexivity | left; reflexivity].
    + destruct (kafka_analysis_shape _ _ _ Hf He) as (n & ->).
      exists (VInt 0). split; [reflexivity | left; reflexivity].
Qed.

(** ** The loop *)

Lemma zero_add a b : zero a -> zero b -> exists t, py_add a b = Ok t /\ zero t.
Proof.
  intros [->| ->] [->| ->].
  - exists (VInt 0). split; [reflexivity | left; reflexivity].
  - exists (VFloat 0). split; [vm_compute; reflexivity | right; reflexivity].
  - exists (VFloat 0). split; [vm_compute; reflexivity | right; reflexivity].
  - exists (VFloat 0). split; [vm_compute; reflexivity | right; reflexivity].
Qed.

(** A raising analyzer leaves the locals as they were. *)
Lemma try_result_raise c fr e :
  outcome c = Raise e -> try_result c fr = (fr, Some e).
Proof.
  destruct c as [[ty f] args]. unfold outcome, analyzer_of, args_of, try_result, try_body, invoke. simpl.
  intros ->. reflexivity.
Qed.

(** An analyzer of the class that returns adds its entry and a zero. *)
Lemma try_result_return self c es savings analysis :
  from_class self c -> outcome c = Ok analysis -> zero savings ->
  exists t, zero t /\
    try_result c (mk_frame (report_so_far self es) savings)
    = (mk_frame (report_so_far self (es ++ [optimization_entry (tag_of c) analysis])) t,
       None).
Proof.
  destruct c as [[ty f] args].
  unfold from_class, outcome, analyzer_of, args_of, tag_of, try_result, try_body, invoke. simpl.
  intros Hin Hc Hz. rewrite Hc.
  destruct (call_inv _ _ _ Hc) as (a & _ & Hf).
  destruct (method_savings _ _ _ _ Hin Hf) as (s & Hs & Hzs).
  destruct (zero_add _ _ Hz Hzs) as (t & Ht & Hzt).
  exists t. split; [exact Hzt|].
  change (append_optimization (report_so_far self es) (optimization_entry ty analysis))
    with (Ok (report_so_far self (es ++ [optimization_entry ty analysis]))).
  cbv beta iota. rewrite Hs. simpl bind. rewrite Ht. reflexivity.
Qed.

(** The trace has no part in what the [try] does to the locals. *)
Lemma try_body_world c fr w :
  try_body c fr w = (try_result c fr, record_call (analyzer_of c) (args_of c) w).
Proof.
  destruct c as [[ty f] args]. unfold try_result, try_body, invoke, analyzer_of, args_of.
  simpl.
  destruct (call f args) as [analysis|e]; [|reflexivity].
  destruct (append_optimization _ _) as [r|e]; [|reflexivity].
  destruct (bind _ _) as [t|e]; reflexivity.
Qed.

Lemma loop_body_frame fr w c : fst (loop_body (fr, w) c) = fst (try_result c fr).
Proof.
  unfold loop_body. rewrite try_body_world.
  destruct c as [[ty f] args].
  destruct (try_result (ty, f, args) fr) as [fr' [e|]]; reflexivity.
Qed.

Lemma loop_body_world fr w c :
  snd (loop_body (fr, w) c)
  = match snd (try_result c fr) with
    | Some e => print (error_line (tag_of c) e) (record_call (analyzer_of c) (args_of c) w)
    | None => record_call (analyzer_of c) (args_of c) w
    end.
Proof.
  unfold loop_body. rewrite try_body_world.
  destruct c as [[ty f] args].
  destruct (try_result (ty, f, args) fr) as [fr' [e|]]; reflexivity.
Qed.

Lemma fold_loop_cons c cs fr w :
  fold_left loop_body (c :: cs) (fr, w)
  = fold_left loop_body cs (fst (loop_body (fr, w) c), snd (loop_body (fr, w) c)).
Proof. simpl. rewrite <- surjective_pairing. reflexivity. Qed.

(** The locals after the loop, when every analyzer is one of the class. *)
Lemma loop_frame self cs :
  Forall (from_class self) cs ->
  forall es savings w, zero savings ->
  exists t, zero t /\
    fst (fold_left loop_body cs (mk_frame (report_so_far self es) savings, w))
    = mk_frame (report_so_far self (es ++ entries cs)) t.
Proof.
  induction 1 as [|c cs Hc _ IH]; intros es savings w Hz.
  - exists savings. simpl. rewrite app_nil_r. auto.
  - rewrite fold_loop_cons, loop_body_frame.
    match goal with |- context [snd ?st] => generalize (snd st); intros w1 end.
    unfold entries. simpl flat_map. fold (entries cs). unfold entry_of.
    destruct (outcome c) as [analysis|e] eqn:Ho.
    + destruct (try_result_return self c es savings analysis Hc Ho Hz) as (t & Hzt & ->).
      simpl fst.
      destruct (IH (es ++ [optimization_entry (tag_of c) analysis]) t w1 Hzt)
        as (t' & Hzt' & ->).
      exists t'. split; [exact Hzt'|]. rewrite <- app_assoc. reflexivity.
    + rewrite (try_result_raise c _ e Ho). simpl fst.
      apply IH. exact Hz.
Qed.

(** The locals do not depend on what has been printed, and a raising
    component leaves them alone: the loop over all the components ends as
    the loop over those that complete. *)
Lemma loop_skips_raising cs :
  forall fr w w',
    fst (fold_left loop_body cs (fr, w))
    = fst (fold_left loop_body (filter completes cs) (fr, w')).
Proof.
  induction cs as [|c cs IH]; intros fr w w'; [reflexivity|].
  rewrite fold_loop_cons, loop_body_frame.
  match goal with |- context [snd ?st] => generalize (snd st); intros w1 end.
  simpl filter. unfold completes at 1.
  destruct (outcome c) as [analysis|e] eqn:Ho; simpl raises; simpl negb; cbv iota.
  - rewrite fold_loop_cons, loop_body_frame. apply IH.
  - rewrite (try_result_raise c fr e Ho). simpl fst. apply IH.
Qed.

(** What the loop does to the world. *)
Lemma loop_world cs :
  forall fr w,
    let w' := snd (fold_left loop_body cs (fr, w)) in
    stderr w' = stderr w /\
    calls w' = calls w ++ map (fun c => (analyzer_of c, args_of c)) cs /\
    exists lines, stdout w' = stdout w ++ lines.
Proof.
  induction cs as [|c cs IH]; intros fr w.
  - simpl. rewrite app_nil_r. repeat split. exists []. rewrite app_nil_r. reflexivity.
  - cbv zeta. rewrite fold_loop_cons.
    destruct (IH (fst (loop_body (fr, w) c)) (snd (loop_body (fr, w) c)))
      as (He & Hc & lines & Ho).
    rewrite He, Hc, Ho, loop_body_world.
    destruct (snd (try_result c fr)) as [e|]; simpl.
    + repeat split.
      * rewrite <- app_assoc. reflexivity.
      * exists (error_line (tag_of c) e :: lines). rewrite <- app_assoc. reflexivity.
    + repeat split.
      * rewrite <- app_assoc. reflexivity.
      * exists lines. reflexivity.
Qed.

Lemma report_result self cs w :
  fst (generate_cost_report_over self cs w)
  = finish_report (fst (fold_left loop_body cs (mk_frame (initial_report self) (VInt 0), w))).
Proof.
  unfold generate_cost_report_over.
  destruct (fold_left loop_body cs _) as [fr w']. reflexivity.
Qed.

Lemma report_world self cs w :
  snd (generate_cost_report_over self cs w)
  = snd (fold_left loop_body cs (mk_frame (initial_report self) (VInt 0), w)).
Proof.
  unfold generate_cost_report_over.
  destruct (fold_left loop_body cs _) as [fr w']. reflexivity.
Qed.

Lemma finish_report_zero self es savings :
  zero savings ->
  finish_report (mk_frame (report_so_far self es) savings)
  = Ok (VDict (report_with self es savings)).
Proof. intros [->| ->]; vm_compute; reflexivity. Qed.

(** The report over analyzers of the class. *)
Lemma report_over_class self cs w :
  Forall (from_class self) cs ->
  exists savings, zero savings /\
    fst (generate_cost_report_over self cs w)
    = Ok (VDict (report_with self (entries cs) savings)).
Proof.
  intros Hcs. rewrite report_result.
  destruct (loop_frame self cs Hcs [] (VInt 0) w (or_introl eq_refl)) as (t & Hz & Hfr).
  change (initial_report self) with (report_so_far self []).
  rewrite Hfr. simpl app. exists t. split; [exact Hz|].
  apply finish_report_zero. exact Hz.
Qed.

Lemma report_with_keys self es savings :
  dict_keys (report_with self es savings) = report_keys.
Proof. reflexivity. Qed.

Lemma sample_components_from_class : Forall (from_class sample_aws) sample_components.
Proof.
  unfold sample_components.
  repeat (apply Forall_cons; [unfold from_class, analyzer_of, methods; simpl; auto|]).
  apply Forall_nil.
Qed.

Lemma entries_length cs : List.length (entries cs) = List.length (filter completes cs).
Proof.
  induction cs as [|c cs IH]; [reflexivity|].
  unfold entries. simpl. fold (entries cs). unfold entry_of, completes.
  destruct (outcome c); simpl; rewrite ?length_app; simpl; rewrite IH; reflexivity.
Qed.

(** ** The report *)

(** C1: the mapping [generate_cost_report] returns has exactly the seven
    documented keys, for the list of the source and for any list of
    analyzers of the class, whether they return or raise. *)
Theorem report_has_the_seven_keys self w :
  (exists d, fst (generate_cost_report self w) = Ok (VDict d) /\
             dict_keys d = report_keys) /\
  (forall cs, Forall (from_class self) cs ->
     exists d, fst (generate_cost_report_over self cs w) = Ok (VDict d) /\
               dict_keys d = report_keys).
Proof.
  split.
  - eexists. split; [reflexivity | reflexivity].
  - intros cs Hcs.
    destruct (report_over_class self cs w Hcs) as (savings & _ & ->).
    eexists. split; [reflexivity | apply report_with_keys].
Qed.

Lemma report_has_the_seven_keys_witness :
  Forall (from_class sample_aws) sample_components /\
  raises (outcome ("rds", analyze_rds_usage sample_aws, [VStr "orders"])) = true /\
  exists d, fst (generate_cost_report_over sample_aws sample_components empty_world)
            = Ok (VDict d) /\
            dict_keys d = report_keys.
Proof.
  split; [exact sample_components_from_class|].
  split; [reflexivity|].
  apply (proj2 (report_has_the_seven_keys sample_aws empty_world) sample_components).
  exact sample_components_from_class.
Defined.

(** C2: an analyzer that raises does not stop the report.  The report is
    returned, its [optimizations] hold one entry for each component that
    completed and none for the others, and the whole report is the one
    the completing components alone would give, so a raising component
    adds nothing to [total_potential_savings] either. *)
Theorem raising_analyzers_are_left_out self cs w :
  Forall (from_class self) cs ->
  exists d,
    fst (generate_cost_report_over self cs w) = Ok (VDict d) /\
    dict_keys d = report_keys /\
    dict_get d "optimizations" = Some (VList (entries cs)) /\
    List.length (entries cs) = List.length (filter completes cs) /\
    (forall c e, outcome c = Raise e -> entry_of c = []) /\
    fst (generate_cost_report_over self (filter completes cs) w) = Ok (VDict d).
Proof.
  intros Hcs.
  destruct (report_over_class self cs w Hcs) as (savings & _ & Hr).
  exists (report_with self (entries cs) savings).
  split; [exact Hr|].
  split; [reflexivity|].
  split; [reflexivity|].
  split; [apply entries_length|].
  split.
  - intros c e Ho. unfold entry_of. rewrite Ho. reflexivity.
  - rewrite <- Hr, !report_result.
    f_equal. symmetry. apply loop_skips_raising.
Qed.

Lemma raising_analyzers_are_left_out_witness :
  Forall (from_class sample_aws) sample_components /\
  map completes sample_components = [false; true; true] /\
  exists d,
    fst (generate_cost_report_over sample_aws sample_components empty_world) = Ok (VDict d) /\
    dict_keys d = report_keys /\
    dict_get d "optimizations" = Some (VList (entries sample_components)) /\
    List.length (entries sample_components) = List.length (filter completes sample_components) /\
    (forall c e, outcome c = Raise e -> entry_of c = []) /\
    fst (generate_cost_report_over sample_aws (filter completes sample_components) empty_world)
    = Ok (VDict d).
Proof.
  split; [exact sample_components_from_class|].
  split; [reflexivity|].
  apply (raising_analyzers_are_left_out sample_aws sample_components empty_world).
  exact sample_components_from_class.
Defined.

(** C7, as the specification has it, fails: the line about the component
    whose analyzer raised is on standard output, and standard error is
    empty. *)
Lemma analyzer_error_is_not_on_stderr :
  let c := ("rds", analyze_rds_usage sample_aws, [VStr "orders"]) in
  let e := KeyError_str "DBInstanceClass" in
  let w' := snd (generate_cost_report_over sample_aws sample_components empty_world) in
  In c sample_components /\
  outcome c = Raise e /\
  ~ In (error_line (tag_of c) e) (stderr w') /\
  stderr w' = [] /\
  stdout w' = ["Error analyzing rds: 'DBInstanceClass'"].
Proof.
  cbv zeta. split; [left; reflexivity|].
  split; [reflexivity|].
  split; [intros H; exact H|].
  split; reflexivity.
Qed.

(** C7, amended: the line [Error analyzing <component>: <message>] of every
    analyzer that raises is printed to standard output, and the report
    writes nothing to standard error.  It holds of any callable given as
    analyzer. *)
Theorem analyzer_errors_are_printed_to_stdout self cs w c e :
  In c cs -> outcome c = Raise e ->
  let w' := snd (generate_cost_report_over self cs w) in
  In (error_line (tag_of c) e) (stdout w') /\ stderr w' = stderr w.
Proof.
  intros Hin Ho. cbv zeta. rewrite report_world. split.
  - destruct (in_split _ _ Hin) as (before & after & ->).
    rewrite fold_left_app.
    destruct (fold_left loop_body before _) as [fr1 w1].
    rewrite fold_loop_cons.
    match goal with
    | |- context [fold_left loop_body after (?fr, ?w2)] =>
        destruct (loop_world after fr w2) as (_ & _ & lines & ->)
    end.
    rewrite loop_body_world, (try_result_raise c fr1 e Ho). simpl.
    rewrite <- app_assoc. apply in_or_app. right. left. reflexivity.
  - apply (loop_world cs).
Qed.

Lemma analyzer_errors_are_printed_to_stdout_witness :
  let c := ("rds", analyze_rds_usage sample_aws, [VStr "orders"]) in
  let e := KeyError_str "DBInstanceClass" in
  let w' := snd (generate_cost_report_over sample_aws sample_components empty_world) in
  (In c sample_components /\ outcome c = Raise e) /\
  In (error_line (tag_of c) e) (stdout w') /\ stderr w' = stderr empty_world.
Proof.
  cbv zeta.
  assert (Hin : In ("rds", analyze_rds_usage sample_aws, [VStr "orders"]) sample_components)
    by (left; reflexivity).
  assert (Ho : outcome ("rds", analyze_rds_usage sample_aws, [VStr "orders"])
               = Raise (KeyError_str "DBInstanceClass")) by reflexivity.
  split; [split; assumption|].
  exact (analyzer_errors_are_printed_to_stdout sample_aws sample_components empty_world
           _ _ Hin Ho).
Defined.

(** C8: [generate_cost_report] calls one analyzer, the cluster analysis on
    ['securazion-production']; its [optimizations] hold that one entry and
    its [priority_recommendations] are three empty lists. *)
Theorem report_runs_the_one_cluster_analysis self w :
  components = [("eks", analyze_cluster_usage, [VStr "securazion-production"])] /\
  calls (snd (generate_cost_report self w))
  = calls w ++ [(analyze_cluster_usage, [VStr "securazion-production"])] /\
  exists d es analysis,
    fst (generate_cost_report self w) = Ok (VDict d) /\
    dict_get d "optimizations" = Some (VList es) /\
    analyze_cluster_usage (VStr "securazion-production") = Ok analysis /\
    es = [optimization_entry "eks" analysis] /\
    (List.length es <= 1)%nat /\
    dict_get d "priority_recommendations"
    = Some (VDict [("high", VList []); ("medium", VList []); ("low", VList [])]).
Proof.
  split; [reflexivity|].
  split; [reflexivity|].
  do 3 eexists.
  split; [reflexivity|].
  split; [reflexivity|].
  split; [reflexivity|].
  split; [reflexivity|].
  split; [simpl; lia | reflexivity].
Qed.

(** ** The percentage *)

Lemma float_of_one : float_of_Z 1 = Ok 1%float.
Proof. vm_compute. reflexivity. Qed.

Lemma divide_by_one_is_no_zero_division savings e :
  py_truediv savings (VInt 1) = Raise e -> exc_type e <> "ZeroDivisionError".
Proof.
  unfold py_truediv.
  destruct savings as [|b|z|f|s|l|d]; cbn [as_number].
  - intros H. injection H as <-. discriminate.
  - change (1 =? 0) with false. cbv iota.
    destruct (is_infinity _); intros H; [injection H as <-|]; discriminate.
  - change (1 =? 0) with false. cbv iota.
    destruct (is_infinity _); intros H; [injection H as <-|]; discriminate.
  - cbn [to_float bind]. rewrite float_of_one. cbn [bind].
    change (PrimFloat.eqb 1 0) with false. discriminate.
  - intros H. injection H as <-. discriminate.
  - intros H. injection H as <-. discriminate.
  - intros H. injection H as <-. discriminate.
Qed.

(** ** The analyzers *)

(** C5: whatever name it is given, [analyze_cluster_usage] returns
    [total_estimated_savings] 0.0 and no recommendation, and
    [get_total_cost] is 0.0. *)
Theorem cluster_analysis_is_constant :
  (forall name, exists d,
     analyze_cluster_usage name = Ok (VDict d) /\
     dict_get d "total_estimated_savings" = Some (VFloat 0) /\
     dict_get d "recommendations" = Some (VList [])) /\
  (forall name name', exists d d',
     analyze_cluster_usage name = Ok (VDict (("cluster", name) :: d)) /\
     analyze_cluster_usage name' = Ok (VDict (("cluster", name') :: d')) /\
     d = d') /\
  get_total_cost = VFloat 0.
Proof.
  split; [|split].
  - intros name. eexists. repeat split.
  - intros name name'. do 2 eexists. repeat split.
  - reflexivity.
Qed.

(** C3: [analyze_rds_usage] answers a mapping with the one key [error] when
    the list [DBClusters] is empty, and [analyze_rds_usage] and
    [analyze_kafka_usage] answer [{'error': str(e)}] when the call to AWS
    raises [e]. *)
Theorem api_failures_become_error_mappings self :
  (forall id response,
     rds_describe_db_clusters self id = Ok response ->
     getitem_key response "DBClusters" = Ok (VList []) ->
     exists d, analyze_rds_usage self id = Ok (VDict d) /\
               dict_keys d = ["error"] /\
               d = [("error", VStr "Cluster not found")]) /\
  (forall id e,
     rds_describe_db_clusters self id = Raise e ->
     analyze_rds_usage self id = Ok (VDict [("error", VStr (exc_str e))])) /\
  (forall arn msk e,
     boto3_client_kafka self = Ok msk ->
     msk arn = Raise e ->
     analyze_kafka_usage self arn = Ok (VDict [("error", VStr (exc_str e))])).
Proof.
  split; [|split].
  - intros id response Hd Hk. eexists.
    unfold analyze_rds_usage, rds_try. rewrite Hd. simpl bind. rewrite Hk.
    simpl. repeat split.
  - intros id e Hd. unfold analyze_rds_usage, rds_try. rewrite Hd. reflexivity.
  - intros arn msk e Hc Hm. unfold analyze_kafka_usage. rewrite Hc. simpl bind.
    rewrite Hm. reflexivity.
Qed.

Lemma api_failures_become_error_mappings_witness :
  (exists d, analyze_rds_usage sample_aws (VStr "gone") = Ok (VDict d) /\
             dict_keys d = ["error"] /\
             d = [("error", VStr "Cluster not found")]) /\
  analyze_rds_usage sample_aws (VStr "unheard-of")
  = Ok (VDict [("error", VStr "DBCluster not found")]) /\
  analyze_kafka_usage sample_aws (VStr "arn:aws:kafka:unheard-of")
  = Ok (VDict [("error", VStr "The requested resource does not exist")]).
Proof.
  destruct (api_failures_become_error_mappings sample_aws) as (Hempty & Hrds & Hmsk).
  split; [|split].
  - apply (Hempty (VStr "gone") (VDict [("DBClusters", VList [])])); reflexivity.
  - apply (Hrds (VStr "unheard-of") (mk_exn "DBClusterNotFoundFault" "DBCluster not found")).
    reflexivity.
  - apply (Hmsk (VStr "arn:aws:kafka:unheard-of") sample_describe_cluster
             (mk_exn "NotFoundException" "The requested resource does not exist"));
      reflexivity.
Defined.

(** C6, as the specification has it, fails: the analysis of a streaming
    cluster is no error and has neither a [metrics] mapping nor an
    estimated-savings field; the analysis of a database cluster likewise. *)
Lemma streaming_analysis_has_no_savings_field :
  exists v v',
    analyze_kafka_usage sample_aws (VStr "arn:aws:kafka:events") = Ok v /\
    is_error v = false /\
    field v "total_estimated_savings" = None /\
    ~ documented_analysis v /\
    analyze_rds_usage sample_aws (VStr "idle") = Ok v' /\
    is_error v' = false /\
    field v' "total_estimated_savings" = None /\
    ~ documented_analysis v'.
Proof.
  do 2 eexists.
  split; [reflexivity|].
  split; [reflexivity|].
  split; [reflexivity|].
  split; [intros (_ & _ & _ & H); discriminate H|].
  split; [reflexivity|].
  split; [reflexivity|].
  split; [reflexivity|].
  intros (_ & _ & _ & H); discriminate H.
Qed.

(** C6, amended: every analysis that is no error names its resource under
    [cluster] and has an empty list of recommendations.  That of
    [analyze_cluster_usage] has the documented shape, with a [metrics]
    mapping and estimated savings of 0.0; those of [analyze_rds_usage] and
    [analyze_kafka_usage] keep their figures under [storage] and [brokers]
    and have no estimated-savings field, which the report reads as 0. *)
Theorem analysis_results_by_analyzer self :
  (forall name v,
     analyze_cluster_usage name = Ok v ->
     is_error v = false /\
     field v "cluster" = Some name /\
     field v "recommendations" = Some (VList []) /\
     documented_analysis v) /\
  (forall id v,
     analyze_rds_usage self id = Ok v -> is_error v = false ->
     field v "cluster" = Some id /\
     field v "recommendations" = Some (VList []) /\
     (exists m, field v "storage" = Some (VDict m)) /\
     field v "total_estimated_savings" = None /\
     get_method v "total_estimated_savings" (VInt 0) = Ok (VInt 0)) /\
  (forall arn v,
     analyze_kafka_usage self arn = Ok v -> is_error v = false ->
     field v "cluster" = Some arn /\
     field v "recommendations" = Some (VList []) /\
     (exists m, field v "brokers" = Some (VDict m)) /\
     field v "total_estimated_savings" = None /\
     get_method v "total_estimated_savings" (VInt 0) = Ok (VInt 0)).
Proof.
  split; [|split].
  - intros name v H. injection H as <-.
    split; [reflexivity|].
    split; [reflexivity|].
    split; [reflexivity|].
    unfold documented_analysis. simpl. eauto 10.
  - intros id v H He.
    destruct (rds_analysis_shape self id v H He) as (ic & al & ->).
    simpl. eauto 10.
  - intros arn v H He.
    destruct (kafka_analysis_shape self arn v H He) as (n & ->).
    simpl. eauto 10.
Qed.

Lemma analysis_results_by_analyzer_witness :
  let v := VDict [("cluster", VStr "arn:aws:kafka:events");
                  ("brokers", VDict [("count", VInt 3)]);
                  ("recommendations", VList [])] in
  (analyze_kafka_usage sample_aws (VStr "arn:aws:kafka:events") = Ok v /\
   is_error v = false) /\
  field v "cluster" = Some (VStr "arn:aws:kafka:events") /\
  field v "recommendations" = Some (VList []) /\
  (exists m, field v "brokers" = Some (VDict m)) /\
  field v "total_estimated_savings" = None /\
  get_method v "total_estimated_savings" (VInt 0) = Ok (VInt 0).
Proof.
  cbv zeta.
  split; [split; reflexivity|].
  apply (proj2 (proj2 (analysis_results_by_analyzer sample_aws))
           (VStr "arn:aws:kafka:events")); reflexivity.
Defined.

(** C9: a defect of line 57.  The descriptor below is what AWS answers for
    a cluster with one instance: it has no [AllocatedStorage], and its
    member, like every member AWS lists, has no [DBInstanceClass].  The
    default of line 52 is read as 100, but the lookup of line 57, which is
    outside the [try], then raises [KeyError], and [analyze_rds_usage]
    reports nothing. *)
Lemma missing_storage_field_can_still_raise :
  rds_describe_db_clusters sample_aws (VStr "orders")
  = Ok (VDict [("DBClusters", VList [sample_descriptor [sample_member]])]) /\
  rds_try sample_aws (VStr "orders") = Found (sample_descriptor [sample_member]) /\
  field (sample_descriptor [sample_member]) "AllocatedStorage" = None /\
  get_method (sample_descriptor [sample_member]) "AllocatedStorage" (VInt 100)
  = Ok (VInt 100) /\
  field sample_member "DBInstanceClass" = None /\
  analyze_rds_usage sample_aws (VStr "orders") = Raise (KeyError_str "DBInstanceClass").
Proof. repeat split. Qed.

(** C10: for a descriptor whose [DBClusterMembers] is an empty list,
    [analyze_rds_usage] does not raise: the test on the list keeps the
    [[0]] from being evaluated, and [instance_class] is ['unknown']. *)
Theorem no_member_gives_unknown_instance_class self id response d rest :
  rds_describe_db_clusters self id = Ok response ->
  getitem_key response "DBClusters" = Ok (VList (VDict d :: rest)) ->
  dict_get d "DBClusterMembers" = Some (VList []) ->
  exists v,
    analyze_rds_usage self id = Ok v /\
    is_error v = false /\
    field v "instance_class" = Some (VStr "unknown").
Proof.
  intros Hd Hk Hm.
  unfold analyze_rds_usage. rewrite (rds_try_found _ _ _ _ _ Hd Hk).
  unfold get_method, getitem_key at 1. rewrite Hm.
  destruct (dict_get d "AllocatedStorage"); simpl; eexists; repeat split.
Qed.

Lemma no_member_gives_unknown_instance_class_witness :
  exists v,
    analyze_rds_usage sample_aws (VStr "idle") = Ok v /\
    is_error v = false /\
    field v "instance_class" = Some (VStr "unknown").
Proof.
  apply (no_member_gives_unknown_instance_class sample_aws (VStr "idle")
           (VDict [("DBClusters", VList [sample_descriptor []])])
           [("DBClusterIdentifier", VStr "orders");
            ("Engine", VStr "aurora-postgresql");
            ("DBClusterMembers", VList [])]
           []); reflexivity.
Defined.

(** * Further properties *)

(** ** One turn of the loop, for an analyzer of the class *)

Lemma zero_add_float a b :
  zero a -> zero b ->
  py_add a b = Ok (if is_float a || is_float b then VFloat 0 else VInt 0).
Proof. intros [->| ->] [->| ->]; vm_compute; reflexivity. Qed.

Lemma float_savings_read c analysis s :
  outcome c = Ok analysis ->
  get_method analysis "total_estimated_savings" (VInt 0) = Ok s ->
  float_savings c = is_float s.
Proof.
  intros Ho Hs. unfold float_savings. rewrite Ho, Hs. destruct s; reflexivity.
Qed.

Lemma loop_body_class self c es savings w :
  from_class self c -> zero savings ->
  loop_body (mk_frame (report_so_far self es) savings, w) c
  = (mk_frame (report_so_far self (es ++ entry_of c))
       (if is_float savings || float_savings c then VFloat 0 else savings),
     mk_world (stdout w ++ error_line_of c) (stderr w) (calls w ++ [invocation c])).
Proof.
  intros Hc Hz. destruct c as [[ty f] args].
  unfold loop_body. rewrite try_body_world.
  unfold entry_of, error_line_of, float_savings, invocation.
  destruct (outcome (ty, f, args)) as [analysis|e] eqn:Ho.
  - unfold try_result, try_body, invoke. cbv beta iota zeta.
    unfold outcome, analyzer_of, args_of in Ho. simpl in Ho. rewrite Ho.
    destruct (call_inv _ _ _ Ho) as (a & _ & Hf).
    destruct (method_savings _ _ _ _ Hc Hf) as (s & Hs & Hzs).
    change (append_optimization (report_so_far self es) (optimization_entry ty analysis))
      with (Ok (report_so_far self (es ++ [optimization_entry ty analysis]))).
    cbv beta iota. rewrite Hs. simpl bind.
    rewrite (zero_add_float _ _ Hz Hzs).
    unfold print, record_call, tag_of, analyzer_of, args_of. simpl.
    rewrite app_nil_r.
    destruct Hz as [->| ->]; destruct Hzs as [->| ->]; reflexivity.
  - rewrite (try_result_raise _ _ e Ho).
    unfold print, record_call, tag_of, analyzer_of, args_of. simpl.
    rewrite app_nil_r, orb_false_r.
    destruct Hz as [->| ->]; reflexivity.
Qed.

Lemma zero_step savings b :
  zero savings -> zero (if is_float savings || b then VFloat 0 else savings).
Proof.
  intros [->| ->]; simpl; [destruct b|]; [right | left | right]; reflexivity.
Qed.

(** The whole loop, for analyzers of the class. *)
Lemma loop_class self cs :
  Forall (from_class self) cs ->
  forall es savings w, zero savings ->
    fold_left loop_body cs (mk_frame (report_so_far self es) savings, w)
    = (mk_frame (report_so_far self (es ++ entries cs))
         (if is_float savings || existsb float_savings cs then VFloat 0 else savings),
       mk_world (stdout w ++ error_lines cs) (stderr w) (calls w ++ map invocation cs)).
Proof.
  induction 1 as [|c cs Hc _ IH]; intros es savings w Hz.
  - simpl. rewrite !app_nil_r, orb_false_r.
    destruct w; destruct Hz as [->| ->]; reflexivity.
  - cbn [fold_left]. rewrite (loop_body_class self c es savings w Hc Hz).
    rewrite (IH _ _ _ (zero_step savings (float_savings c) Hz)).
    unfold entries, error_lines. simpl flat_map. simpl map. simpl existsb.
    simpl stdout. simpl stderr. simpl calls.
    rewrite <- !app_assoc. simpl app.
    f_equal. f_equal.
    destruct Hz as [->| ->]; simpl; destruct (float_savings c); reflexivity.
Qed.

Lemma report_class self cs w :
  Forall (from_class self) cs ->
  generate_cost_report_over self cs w
  = (Ok (VDict (report_with self (entries cs)
                  (if existsb float_savings cs then VFloat 0 else VInt 0))),
     mk_world (stdout w ++ error_lines cs) (stderr w) (calls w ++ map invocation cs)).
Proof.
  intros Hcs. unfold generate_cost_report_over.
  change (initial_report self) with (report_so_far self []).
  rewrite (loop_class self cs Hcs [] (VInt 0) w (or_introl eq_refl)).
  simpl app. simpl orb. f_equal.
  apply finish_report_zero. destruct (existsb float_savings cs); [right | left]; reflexivity.
Qed.

Lemma entries_and_lines cs :
  (List.length (entries cs) + List.length (error_lines cs) = List.length cs)%nat.
Proof.
  induction cs as [|c cs IH]; [reflexivity|].
  unfold entries, error_lines in *. simpl flat_map. rewrite !length_app.
  unfold entry_of at 1, error_line_of at 1.
  destruct (outcome c); simpl; lia.
Qed.

(** ** The report, for analyzers of the class *)

(** X1: every component is accounted for, once.  The report is returned;
    its [optimizations] are the entries of the components whose analyzer
    returned, standard output gains the lines of those whose analyzer
    raised and nothing else, both in the order of the list, and together
    they count as many as the components: a component leaves an entry or a
    line, never both and never neither. *)
Theorem every_component_is_accounted_for self cs w :
  Forall (from_class self) cs ->
  exists d es lines,
    fst (generate_cost_report_over self cs w) = Ok (VDict d) /\
    dict_get d "optimizations" = Some (VList es) /\
    stdout (snd (generate_cost_report_over self cs w)) = stdout w ++ lines /\
    es = entries cs /\
    lines = error_lines cs /\
    (List.length es + List.length lines = List.length cs)%nat /\
    (forall c analysis, In c cs -> outcome c = Ok analysis ->
       In (optimization_entry (tag_of c) analysis) es) /\
    (forall c e, In c cs -> outcome c = Raise e ->
       In (error_line (tag_of c) e) lines).
Proof.
  intros Hcs. rewrite (report_class self cs w Hcs).
  exists (report_with self (entries cs)
            (if existsb float_savings cs then VFloat 0 else VInt 0)),
         (entries cs), (error_lines cs).
  split; [reflexivity|].
  split; [reflexivity|].
  split; [reflexivity|].
  split; [reflexivity|].
  split; [reflexivity|].
  split; [apply entries_and_lines|].
  split.
  - intros c analysis Hin Ho. unfold entries. apply in_flat_map.
    exists c. split; [exact Hin|]. unfold entry_of. rewrite Ho. left. reflexivity.
  - intros c e Hin Ho. unfold error_lines. apply in_flat_map.
    exists c. split; [exact Hin|]. unfold error_line_of. rewrite Ho. left. reflexivity.
Qed.

Lemma every_component_is_accounted_for_witness :
  Forall (from_class sample_aws) sample_components /\
  exists d es lines,
    fst (generate_cost_report_over sample_aws sample_components empty_world)
    = Ok (VDict d) /\
    dict_get d "optimizations" = Some (VList es) /\
    stdout (snd (generate_cost_report_over sample_aws sample_components empty_world))
    = stdout empty_world ++ lines /\
    List.length es = 2%nat /\
    lines = ["Error analyzing rds: 'DBInstanceClass'"] /\
    (List.length es + List.length lines = List.length sample_components)%nat.
Proof.
  split; [exact sample_components_from_class|].
  destruct (every_component_is_accounted_for sample_aws sample_components empty_world
              sample_components_from_class)
    as (d & es & lines & Hd & Hes & Hout & -> & -> & Hlen & _).
  exists d, (entries sample_components), (error_lines sample_components).
  split; [exact Hd|].
  split; [exact Hes|].
  split; [exact Hout|].
  split; [reflexivity|].
  split; [reflexivity | exact Hlen].
Defined.


(** X3: when every analyzer raises, and when the list is empty, the report
    is still returned: no optimization, the [int] 0 as total and 0.0 as
    percentage.  This holds of any callable. *)
Theorem report_when_every_analyzer_raises self cs w :
  (forall c, In c cs -> raises (outcome c) = true) ->
  fst (generate_cost_report_over self cs w) = Ok (VDict (report_with self [] (VInt 0))).
Proof.
  intros Hall. rewrite report_result.
  rewrite (loop_skips_raising cs _ w w).
  assert (Hnone : filter completes cs = []).
  { induction cs as [|c cs IH]; [reflexivity|].
    simpl. unfold completes at 1. rewrite (Hall c (or_introl eq_refl)). simpl.
    apply IH. intros c' Hin. apply Hall. right. exact Hin. }
  rewrite Hnone. reflexivity.
Qed.

Lemma report_when_every_analyzer_raises_witness :
  (forall c, In c [("rds", analyze_rds_usage sample_aws, [VStr "orders"]);
                   ("eks", analyze_cluster_usage, [])] ->
             raises (outcome c) = true) /\
  fst (generate_cost_report_over sample_aws
         [("rds", analyze_rds_usage sample_aws, [VStr "orders"]);
          ("eks", analyze_cluster_usage, [])] empty_world)
  = Ok (VDict (report_with sample_aws [] (VInt 0))).
Proof.
  assert (H : forall c, In c [("rds", analyze_rds_usage sample_aws, [VStr "orders"]);
                              ("eks", analyze_cluster_usage, [])] ->
                        raises (outcome c) = true).
  { intros c [<-|[<-|[]]]; reflexivity. }
  split; [exact H|].
  exact (report_when_every_analyzer_raises sample_aws _ empty_world H).
Defined.

Lemma rds_savings_read self id v :
  analyze_rds_usage self id = Ok v ->
  get_method v "total_estimated_savings" (VInt 0) = Ok (VInt 0).
Proof.
  intros H. destruct (is_error v) eqn:He.
  - unfold analyze_rds_usage in H.
    destruct (rds_try self id) as [cluster|answer] eqn:Ht.
    + exfalso. revert H He.
      destruct (get_method cluster "AllocatedStorage" (VInt 100)); simpl; [|discriminate].
      destruct (getitem_key cluster "DBClusterMembers"); simpl; [|discriminate].
      match goal with
      | |- bind ?x _ = _ -> _ => destruct x; simpl; [|discriminate]
      end.
      intros H. injection H as <-. discriminate.
    + injection H as ->. apply rds_try_early in Ht. destruct Ht as [m ->]. reflexivity.
  - destruct (rds_analysis_shape _ _ _ H He) as (ic & al & ->). reflexivity.
Qed.

Lemma kafka_savings_read self arn v :
  analyze_kafka_usage self arn = Ok v ->
  get_method v "total_estimated_savings" (VInt 0) = Ok (VInt 0).
Proof.
  intros H. destruct (is_error v) eqn:He.
  - unfold analyze_kafka_usage in H.
    destruct (boto3_client_kafka self) as [msk|e]; simpl in H; [|discriminate].
    destruct (msk arn) as [cluster|e].
    + exfalso. revert H He.
      destruct (getitem_key cluster "ClusterInfo") as [info|e]; simpl; [|discriminate].
      destruct (getitem_key info "NumberOfBrokerNodes"); simpl; [|discriminate].
      intros H. injection H as <-. discriminate.
    + injection H as <-. reflexivity.
  - destruct (kafka_analysis_shape _ _ _ H He) as (n & ->). reflexivity.
Qed.

(** X4: [total_potential_savings] is the [float] 0.0 as soon as one
    completed analysis has float savings, which the cluster analysis has,
    and the [int] 0 otherwise, as when only database and streaming clusters
    are analysed. *)
Theorem total_is_a_float_once_a_float_is_added self cs w :
  Forall (from_class self) cs ->
  (exists d,
     fst (generate_cost_report_over self cs w) = Ok (VDict d) /\
     dict_get d "total_potential_savings"
     = Some (if existsb float_savings cs then VFloat 0 else VInt 0)) /\
  (forall tag name, In (tag, analyze_cluster_usage, [name]) cs ->
     existsb float_savings cs = true) /\
  ((forall c, In c cs ->
      analyzer_of c = analyze_rds_usage self \/ analyzer_of c = analyze_kafka_usage self) ->
   existsb float_savings cs = false).
Proof.
  intros Hcs. split; [|split].
  - rewrite (report_class self cs w Hcs). eexists. split; reflexivity.
  - intros tag name Hin. apply existsb_exists.
    exists (tag, analyze_cluster_usage, [name]). split; [exact Hin | reflexivity].
  - intros Hall. clear Hcs. induction cs as [|c cs IH]; [reflexivity|].
    simpl. rewrite IH by (intros c' Hin; apply Hall; right; exact Hin).
    rewrite orb_false_r. unfold float_savings.
    destruct (outcome c) as [v|e] eqn:Ho; [|reflexivity].
    destruct (call_inv _ _ _ Ho) as (a & _ & Hf).
    destruct (Hall c (or_introl eq_refl)) as [Hr|Hk].
    + rewrite Hr in Hf. rewrite (rds_savings_read _ _ _ Hf). reflexivity.
    + rewrite Hk in Hf. rewrite (kafka_savings_read _ _ _ Hf). reflexivity.
Qed.

Lemma total_is_a_float_once_a_float_is_added_witness :
  Forall (from_class sample_aws) sample_components /\
  In ("eks", analyze_cluster_usage, [VStr "securazion-production"]) sample_components /\
  existsb float_savings sample_components = true /\
  exists d,
    fst (generate_cost_report_over sample_aws sample_components empty_world) = Ok (VDict d) /\
    dict_get d "total_potential_savings"
    = Some (if existsb float_savings sample_components then VFloat 0 else VInt 0).
Proof.
  assert (Hin : In ("eks", analyze_cluster_usage, [VStr "securazion-production"])
                  sample_components) by (right; left; reflexivity).
  destruct (total_is_a_float_once_a_float_is_added sample_aws sample_components empty_world
              sample_components_from_class) as (Hd & Hfloat & _).
  split; [exact sample_components_from_class|].
  split; [exact Hin|].
  split; [exact (Hfloat _ _ Hin) | exact Hd].
Defined.

(** X5: a failure of the relational-storage API does not take the component
    out of the report: the error mapping is listed among the optimizations
    like any analysis, and standard output gains no line for the
    component, only those of the components before and after it. *)
Theorem api_failure_is_listed_in_the_report self before after w tag id e :
  let c := (tag, analyze_rds_usage self, [id]) in
  Forall (from_class self) (before ++ c :: after) ->
  rds_describe_db_clusters self id = Raise e ->
  (exists d es,
     fst (generate_cost_report_over self (before ++ c :: after) w) = Ok (VDict d) /\
     dict_get d "optimizations" = Some (VList es) /\
     In (optimization_entry tag (VDict [("error", VStr (exc_str e))])) es) /\
  stdout (snd (generate_cost_report_over self (before ++ c :: after) w))
  = stdout w ++ error_lines before ++ error_lines after.
Proof.
  cbv zeta. intros Hcs Hd.
  assert (Ho : outcome (tag, analyze_rds_usage self, [id])
               = Ok (VDict [("error", VStr (exc_str e))])).
  { unfold outcome, analyzer_of, args_of. simpl.
    unfold analyze_rds_usage, rds_try. rewrite Hd. reflexivity. }
  rewrite (report_class self _ w Hcs). split.
  - do 2 eexists.
    split; [reflexivity|]. split; [reflexivity|].
    unfold entries. apply in_flat_map.
    exists (tag, analyze_rds_usage self, [id]).
    split; [apply in_or_app; right; left; reflexivity|].
    unfold entry_of. rewrite Ho. left. reflexivity.
  - simpl stdout. f_equal. unfold error_lines.
    rewrite flat_map_app. simpl flat_map.
    unfold error_line_of at 2. rewrite Ho. reflexivity.
Qed.

Lemma api_failure_is_listed_in_the_report_witness :
  let before := [("db", analyze_rds_usage sample_aws, [VStr "orders"])] in
  let c := ("rds", analyze_rds_usage sample_aws, [VStr "unheard-of"]) in
  let after := [("eks", analyze_cluster_usage, [VStr "securazion-production"])] in
  (Forall (from_class sample_aws) (before ++ c :: after) /\
   rds_describe_db_clusters sample_aws (VStr "unheard-of")
   = Raise (mk_exn "DBClusterNotFoundFault" "DBCluster not found")) /\
  (exists d es,
     fst (generate_cost_report_over sample_aws (before ++ c :: after) empty_world)
     = Ok (VDict d) /\
     dict_get d "optimizations" = Some (VList es) /\
     In (optimization_entry "rds" (VDict [("error", VStr "DBCluster not found")])) es) /\
  stdout (snd (generate_cost_report_over sample_aws (before ++ c :: after) empty_world))
  = ["Error analyzing db: 'DBInstanceClass'"].
Proof.
  cbv zeta.
  assert (Hcs : Forall (from_class sample_aws)
                  ([("db", analyze_rds_usage sample_aws, [VStr "orders"])]
                   ++ ("rds", analyze_rds_usage sample_aws, [VStr "unheard-of"])
                   :: [("eks", analyze_cluster_usage, [VStr "securazion-production"])])).
  { simpl app.
    repeat (apply Forall_cons; [unfold from_class, analyzer_of, methods; simpl; auto|]).
    apply Forall_nil. }
  split; [split; [exact Hcs | reflexivity]|].
  destruct (api_failure_is_listed_in_the_report sample_aws
              [("db", analyze_rds_usage sample_aws, [VStr "orders"])]
              [("eks", analyze_cluster_usage, [VStr "securazion-production"])]
              empty_world "rds" (VStr "unheard-of")
              (mk_exn "DBClusterNotFoundFault" "DBCluster not found") Hcs eq_refl)
    as (Hlisted & Hout).
  split; [exact Hlisted|].
  rewrite Hout. reflexivity.
Defined.

(** ** The exceptions that leave the analyzers *)

Lemma getitem_key_raise v k e :
  getitem_key v k = Raise e -> In (exc_type e) ["KeyError"; "TypeError"].
Proof.
  destruct v as [|b|z|f|s|l|d]; simpl;
    try (intros H; injection H as <-; simpl; auto).
  destruct (dict_get d k); [discriminate|].
  intros H; injection H as <-; simpl; auto.
Qed.

(** On a value that passed the truth test, [[0]] raises no [IndexError]. *)
Lemma getitem_0_raise v e :
  truthy v = true -> getitem_0 v = Raise e -> In (exc_type e) ["KeyError"; "TypeError"].
Proof.
  destruct v as [|b|z|f|s|l|d]; simpl; intros Ht;
    try discriminate Ht;
    try (intros H; injection H as <-; simpl; auto).
  - destruct s; [discriminate Ht | discriminate].
  - destruct l; [discriminate Ht | discriminate].
Qed.

Lemma rds_try_found_inv self id cluster :
  rds_try self id = Found cluster ->
  exists response found,
    rds_describe_db_clusters self id = Ok response /\
    getitem_key response "DBClusters" = Ok found /\
    truthy found = true /\
    getitem_0 found = Ok cluster.
Proof.
  unfold rds_try.
  destruct (rds_describe_db_clusters self id) as [response|e]; simpl; [|discriminate].
  destruct (getitem_key response "DBClusters") as [found|e] eqn:Hk; simpl; [|discriminate].
  destruct (truthy found) eqn:Ht; simpl; [|discriminate].
  destruct (getitem_0 found) as [c|e] eqn:H0; simpl; [|discriminate].
  intros H. injection H as <-. eauto 6.
Qed.

(** X6: an exception leaves [analyze_rds_usage] only after the API has
    answered with a descriptor, and it is an [AttributeError], a [KeyError]
    or a [TypeError] from reading that descriptor: never the exception of
    the API, and never an [IndexError], since both [[0]] come after a truth
    test. *)
Theorem database_analysis_raises_only_on_the_descriptor self id e :
  analyze_rds_usage self id = Raise e ->
  In (exc_type e) ["AttributeError"; "KeyError"; "TypeError"] /\
  exists response found cluster,
    rds_describe_db_clusters self id = Ok response /\
    getitem_key response "DBClusters" = Ok found /\
    truthy found = true /\
    getitem_0 found = Ok cluster.
Proof.
  unfold analyze_rds_usage.
  destruct (rds_try self id) as [cluster|answer] eqn:Ht; [|discriminate].
  intros H. split.
  - revert H.
    destruct (get_method cluster "AllocatedStorage" (VInt 100)) as [used|e1] eqn:Hg; simpl.
    2:{ intros H. injection H as <-.
        destruct cluster; simpl in Hg; try (injection Hg as <-; simpl; auto).
        destruct (dict_get d "AllocatedStorage"); discriminate. }
    destruct (getitem_key cluster "DBClusterMembers") as [members|e1] eqn:Hm; simpl.
    2:{ intros H. injection H as <-.
        destruct (getitem_key_raise _ _ _ Hm) as [<-|[<-|[]]]; simpl; auto. }
    destruct (truthy members) eqn:Htm; simpl.
    2:{ discriminate. }
    destruct (getitem_0 members) as [first|e1] eqn:H0; simpl.
    2:{ intros H. injection H as <-.
        destruct (getitem_0_raise _ _ Htm H0) as [<-|[<-|[]]]; simpl; auto. }
    destruct (getitem_key first "DBInstanceClass") as [ic|e1] eqn:Hi; simpl.
    { discriminate. }
    intros H. injection H as <-.
    destruct (getitem_key_raise _ _ _ Hi) as [<-|[<-|[]]]; simpl; auto.
  - destruct (rds_try_found_inv _ _ _ Ht) as (response & found & Hd & Hk & Htr & H0).
    eauto 8.
Qed.

Lemma database_analysis_raises_only_on_the_descriptor_witness :
  analyze_rds_usage sample_aws (VStr "orders") = Raise (KeyError_str "DBInstanceClass") /\
  In (exc_type (KeyError_str "DBInstanceClass")) ["AttributeError"; "KeyError"; "TypeError"] /\
  exists response found cluster,
    rds_describe_db_clusters sample_aws (VStr "orders") = Ok response /\
    getitem_key response "DBClusters" = Ok found /\
    truthy found = true /\
    getitem_0 found = Ok cluster.
Proof.
  split; [reflexivity|].
  apply (database_analysis_raises_only_on_the_descriptor sample_aws (VStr "orders")).
  reflexivity.
Defined.

(** X7: whatever goes wrong before [analyze_rds_usage] has the descriptor
    ends in a mapping with the one key [error]: a response without
    [DBClusters] or that is no mapping gives the message of the failed
    lookup, any empty or null [DBClusters] gives ['Cluster not found'], and
    a [DBClusters] that cannot be indexed gives the message of that
    failure. *)
Theorem database_lookup_failures_become_error_mappings self id response :
  rds_describe_db_clusters self id = Ok response ->
  (forall e, getitem_key response "DBClusters" = Raise e ->
     analyze_rds_usage self id = Ok (VDict [("error", VStr (exc_str e))])) /\
  (forall found, getitem_key response "DBClusters" = Ok found -> truthy found = false ->
     analyze_rds_usage self id = Ok (VDict [("error", VStr "Cluster not found")])) /\
  (forall found e, getitem_key response "DBClusters" = Ok found -> truthy found = true ->
     getitem_0 found = Raise e ->
     analyze_rds_usage self id = Ok (VDict [("error", VStr (exc_str e))])).
Proof.
  intros Hd. unfold analyze_rds_usage, rds_try. rewrite Hd. cbn [bind].
  split; [|split].
  - intros e Hk. rewrite Hk. reflexivity.
  - intros found Hk Ht. rewrite Hk. cbn [bind]. rewrite Ht. reflexivity.
  - intros found e Hk Ht H0. rewrite Hk. cbn [bind]. rewrite Ht. cbn [negb].
    cbn [bind]. rewrite H0. reflexivity.
Qed.

Lemma database_lookup_failures_become_error_mappings_witness :
  analyze_rds_usage odd_aws (VStr "bare") = Ok (VDict [("error", VStr "'DBClusters'")]) /\
  analyze_rds_usage odd_aws (VStr "null") = Ok (VDict [("error", VStr "Cluster not found")]) /\
  analyze_rds_usage odd_aws (VStr "odd")
  = Ok (VDict [("error", VStr "'int' object is not subscriptable")]).
Proof.
  split; [|split].
  - destruct (database_lookup_failures_become_error_mappings odd_aws (VStr "bare")
                (VDict [("ResponseMetadata", VDict [])]) eq_refl) as (H & _ & _).
    apply (H (KeyError_str "DBClusters")). reflexivity.
  - destruct (database_lookup_failures_become_error_mappings odd_aws (VStr "null")
                (VDict [("DBClusters", VNone)]) eq_refl) as (_ & H & _).
    apply (H VNone); reflexivity.
  - destruct (database_lookup_failures_become_error_mappings odd_aws (VStr "odd")
                (VDict [("DBClusters", VInt 7)]) eq_refl) as (_ & _ & H).
    apply (H (VInt 7) (TypeError "'int' object is not subscriptable")); reflexivity.
Defined.

(** X8: an exception that leaves [analyze_kafka_usage] is either the one
    raised when the streaming client is made, which is outside the [try],
    or a [KeyError] or [TypeError] from reading an answer of the API; an
    exception of the API call itself never leaves it. *)
Theorem streaming_analysis_raises self arn e :
  analyze_kafka_usage self arn = Raise e ->
  boto3_client_kafka self = Raise e \/
  (exists msk cluster,
     boto3_client_kafka self = Ok msk /\ msk arn = Ok cluster /\
     In (exc_type e) ["KeyError"; "TypeError"]).
Proof.
  unfold analyze_kafka_usage.
  destruct (boto3_client_kafka self) as [msk|e1]; simpl.
  2:{ intros H. injection H as <-. left. reflexivity. }
  destruct (msk arn) as [cluster|e1] eqn:Hm; [|discriminate].
  intros H. right. exists msk, cluster. split; [reflexivity|]. split; [exact Hm|].
  revert H.
  destruct (getitem_key cluster "ClusterInfo") as [info|e1] eqn:Hi; simpl.
  2:{ intros H. injection H as <-. exact (getitem_key_raise _ _ _ Hi). }
  destruct (getitem_key info "NumberOfBrokerNodes") as [n|e1] eqn:Hn; simpl.
  { discriminate. }
  intros H. injection H as <-. exact (getitem_key_raise _ _ _ Hn).
Qed.

Lemma streaming_analysis_raises_witness :
  let self := CostOptimizer_init sample_runtime in
  exists optimizer e,
    self = Ok optimizer /\
    analyze_kafka_usage optimizer (VStr "arn:aws:kafka:events") = Raise e /\
    (boto3_client_kafka optimizer = Raise e \/
     (exists msk cluster,
        boto3_client_kafka optimizer = Ok msk /\
        msk (VStr "arn:aws:kafka:events") = Ok cluster /\
        In (exc_type e) ["KeyError"; "TypeError"])).
Proof.
  cbv zeta. do 2 eexists. split; [reflexivity|]. split; [reflexivity|].
  eapply streaming_analysis_raises. reflexivity.
Defined.

(** X9: for a descriptor with a member, [analyze_rds_usage] reports the
    [DBInstanceClass] of the first member and, as [allocated_gb], the
    descriptor's own [AllocatedStorage] when it has one; the other clusters
    of the response and the other members are not read. *)
Theorem database_analysis_of_a_described_cluster
    self id response d rest first others instance_class :
  rds_describe_db_clusters self id = Ok response ->
  getitem_key response "DBClusters" = Ok (VList (VDict d :: rest)) ->
  dict_get d "DBClusterMembers" = Some (VList (first :: others)) ->
  getitem_key first "DBInstanceClass" = Ok instance_class ->
  analyze_rds_usage self id
  = Ok (VDict [("cluster", id);
               ("instance_class", instance_class);
               ("storage",
                VDict [("allocated_gb",
                        match dict_get d "AllocatedStorage" with
                        | Some allocated => allocated
                        | None => VInt 100
                        end);
                       ("free_gb", VInt 0);
                       ("percent_free", VFloat 0)]);
               ("replicas", VList []);
               ("recommendations", VList [])]).
Proof.
  intros Hd Hk Hm Hi.
  unfold analyze_rds_usage. rewrite (rds_try_found _ _ _ _ _ Hd Hk).
  unfold get_method, getitem_key at 1 2. rewrite Hm.
  destruct (dict_get d "AllocatedStorage"); simpl; rewrite Hi; reflexivity.
Qed.

Lemma database_analysis_of_a_described_cluster_witness :
  let member := VDict [("DBInstanceIdentifier", VStr "orders-1");
                       ("DBInstanceClass", VStr "db.r6g.large")] in
  let d := [("DBClusterIdentifier", VStr "orders"); ("AllocatedStorage", VInt 250);
            ("DBClusterMembers", VList [member; VDict []])] in
  let self := mk_aws (fun _ => Ok (VDict [("DBClusters", VList [VDict d; VNone])]))
                     (Ok sample_describe_cluster) "2024-05-01T12:00:00" in
  analyze_rds_usage self (VStr "orders")
  = Ok (VDict [("cluster", VStr "orders");
               ("instance_class", VStr "db.r6g.large");
               ("storage", VDict [("allocated_gb", VInt 250);
                                  ("free_gb", VInt 0);
                                  ("percent_free", VFloat 0)]);
               ("replicas", VList []);
               ("recommendations", VList [])]).
Proof.
  cbv zeta.
  eapply (database_analysis_of_a_described_cluster _ (VStr "orders")
            (VDict [("DBClusters",
                     VList [VDict [("DBClusterIdentifier", VStr "orders");
                                   ("AllocatedStorage", VInt 250);
                                   ("DBClusterMembers",
                                    VList [VDict [("DBInstanceIdentifier", VStr "orders-1");
                                                  ("DBInstanceClass", VStr "db.r6g.large")];
                                           VDict []])];
                            VNone])])
            [("DBClusterIdentifier", VStr "orders"); ("AllocatedStorage", VInt 250);
             ("DBClusterMembers",
              VList [VDict [("DBInstanceIdentifier", VStr "orders-1");
                            ("DBInstanceClass", VStr "db.r6g.large")];
                     VDict []])]
            [VNone]
            (VDict [("DBInstanceIdentifier", VStr "orders-1");
                    ("DBInstanceClass", VStr "db.r6g.large")])
            [VDict []] (VStr "db.r6g.large")); reflexivity.
Defined.

(** ** The loop, for any callable *)

Lemma py_add_number a b t :
  is_number a = true -> py_add a b = Ok t -> is_number t = true.
Proof.
  destruct a as [|x|x|x|x|x|x]; try discriminate; intros _;
    destruct b as [|y|y|y|y|y|y]; unfold py_add, to_float; cbn [as_number bind];
    repeat match goal with
           | |- context [float_of_Z ?z] => destruct (float_of_Z z); cbn [bind]
           end;
    intros H; try discriminate H; injection H as <-; reflexivity.
Qed.

Lemma try_result_any self c es total :
  is_number total = true ->
  exists total',
    is_number total' = true /\
    fst (try_result c (mk_frame (report_so_far self es) total))
    = mk_frame (report_so_far self (es ++ entry_of c)) total'.
Proof.
  intros Hn. destruct c as [[ty f] args].
  unfold entry_of, outcome, analyzer_of, args_of, tag_of, try_result, try_body, invoke. simpl.
  destruct (call f args) as [analysis|e].
  - change (append_optimization (report_so_far self es) (optimization_entry ty analysis))
      with (Ok (report_so_far self (es ++ [optimization_entry ty analysis]))).
    cbv beta iota.
    destruct (get_method analysis "total_estimated_savings" (VInt 0)) as [s|e]; cbn [bind].
    + destruct (py_add total s) as [t|e] eqn:Ha.
      * exists t. split; [exact (py_add_number _ _ _ Hn Ha) | reflexivity].
      * exists total. split; [exact Hn | reflexivity].
    + exists total. split; [exact Hn | reflexivity].
  - exists total. rewrite app_nil_r. split; [exact Hn | reflexivity].
Qed.

(** After the loop the report holds an entry for every analysis returned,
    and the sum is a number. *)
Lemma loop_any self cs :
  forall es total w, is_number total = true ->
  exists total',
    is_number total' = true /\
    fst (fold_left loop_body cs (mk_frame (report_so_far self es) total, w))
    = mk_frame (report_so_far self (es ++ entries cs)) total'.
Proof.
  induction cs as [|c cs IH]; intros es total w Hn.
  - exists total. simpl. rewrite app_nil_r. auto.
  - rewrite fold_loop_cons, loop_body_frame.
    match goal with |- context [snd ?st] => generalize (snd st); intros w1 end.
    destruct (try_result_any self c es total Hn) as (t & Ht & ->).
    destruct (IH (es ++ entry_of c) t w1 Ht) as (t' & Ht' & ->).
    exists t'. split; [exact Ht'|].
    unfold entries. simpl flat_map. rewrite <- app_assoc. reflexivity.
Qed.

Lemma float_of_hundred : float_of_Z 100 = Ok 100%float.
Proof. vm_compute. reflexivity. Qed.

(** The end of the report on a sum that is a number: only an [int] beyond
    the range of [float] makes the division raise. *)
Lemma finish_report_number self es total :
  is_number total = true ->
  (exists pct,
     finish_report (mk_frame (report_so_far self es) total)
     = Ok (VDict [("timestamp", VStr (utcnow_isoformat self));
                  ("time_range", VStr "LAST_30_DAYS");
                  ("total_current_cost", get_total_cost);
                  ("optimizations", VList es);
                  ("total_potential_savings", total);
                  ("savings_percentage", VFloat pct);
                  ("priority_recommendations", priority_recommendations)])) \/
  (exists e,
     finish_report (mk_frame (report_so_far self es) total) = Raise e /\
     exc_type e = "OverflowError" /\ is_float total = false).
Proof.
  intros Hn. unfold finish_report. cbn [report total_potential_savings].
  change (getitem_key
            (VDict (dict_set (report_so_far self es) "total_potential_savings" total))
            "total_current_cost") with (Ok (VFloat 0)).
  cbn [bind]. unfold savings_percentage.
  change (py_or (VFloat 0) (VInt 1)) with (VInt 1).
  destruct total as [|b|z|f|s|l|d]; try discriminate Hn.
  - unfold py_truediv. cbn [as_number]. change (1 =? 0) with false. cbv iota zeta.
    destruct (is_infinity _).
    + right. eexists. cbn [bind]. repeat split.
    + left. cbn [bind]. unfold py_mul. cbn [as_number to_float bind].
      rewrite float_of_hundred. cbn [bind]. eexists. reflexivity.
  - left. unfold py_truediv. cbn [as_number to_float bind].
    rewrite float_of_one. cbn [bind]. change (PrimFloat.eqb 1 0) with false. cbv iota.
    cbn [bind]. unfold py_mul. cbn [as_number to_float bind].
    rewrite float_of_hundred. cbn [bind]. eexists. reflexivity.
Qed.

Lemma report_any self cs w :
  (exists total pct,
     is_number total = true /\
     fst (generate_cost_report_over self cs w)
     = Ok (VDict [("timestamp", VStr (utcnow_isoformat self));
                  ("time_range", VStr "LAST_30_DAYS");
                  ("total_current_cost", get_total_cost);
                  ("optimizations", VList (entries cs));
                  ("total_potential_savings", total);
                  ("savings_percentage", VFloat pct);
                  ("priority_recommendations", priority_recommendations)])) \/
  (exists e, fst (generate_cost_report_over self cs w) = Raise e /\
             exc_type e = "OverflowError").
Proof.
  rewrite report_result.
  change (initial_report self) with (report_so_far self []).
  destruct (loop_any self cs [] (VInt 0) w eq_refl) as (total & Hn & ->).
  simpl app.
  destruct (finish_report_number self (entries cs) total Hn) as [(pct & ->)|(e & -> & He & _)].
  - left. exists total, pct. split; [exact Hn | reflexivity].
  - right. exists e. split; [reflexivity | exact He].
Qed.

(** ** The percentage the report stores *)

(** The end of the report is the expression of line 117 on the sum the loop
    left, and the report stores what it gives. *)
Lemma finish_report_divides self es total :
  finish_report (mk_frame (report_so_far self es) total)
  = (pct <- (q <- py_truediv total (VInt 1) ;; py_mul q (VInt 100)) ;;
     Ok (VDict [("timestamp", VStr (utcnow_isoformat self));
                ("time_range", VStr "LAST_30_DAYS");
                ("total_current_cost", get_total_cost);
                ("optimizations", VList es);
                ("total_potential_savings", total);
                ("savings_percentage", pct);
                ("priority_recommendations", priority_recommendations)])).
Proof. reflexivity. Qed.

(** C4: with a total cost of 0.0 the percentage is
    [total_potential_savings / 1 * 100]; savings of 0.0 give 0.0; the
    divisor that [or 1] leaves is never a zero, and the division of the
    report never raises [ZeroDivisionError].  The report itself, over any
    list of analyzers, stores under [savings_percentage] the value of
    [total / 1 * 100] for the [total] it stores under
    [total_potential_savings]: savings of 5.0 are reported as 500.0. *)
Theorem zero_cost_divides_by_one :
  get_total_cost = VFloat 0 /\
  (forall savings cost, cost = VFloat 0 ->
     savings_percentage savings cost
     = (q <- py_truediv savings (VInt 1) ;; py_mul q (VInt 100))) /\
  savings_percentage (VFloat 0) (VFloat 0) = Ok (VFloat 0) /\
  (forall cost, truthy (py_or cost (VInt 1)) = true) /\
  (forall savings e,
     py_truediv savings (py_or get_total_cost (VInt 1)) = Raise e ->
     exc_type e <> "ZeroDivisionError") /\
  (forall self cs w, Forall (from_class self) cs ->
     exists d savings pct,
       fst (generate_cost_report_over self cs w) = Ok (VDict d) /\
       dict_get d "total_current_cost" = Some (VFloat 0) /\
       dict_get d "total_potential_savings" = Some savings /\
       dict_get d "savings_percentage" = Some pct /\
       (q <- py_truediv savings (VInt 1) ;; py_mul q (VInt 100)) = Ok pct) /\
  (forall self cs w, exists total,
     is_number total = true /\
     fst (generate_cost_report_over self cs w)
     = (pct <- (q <- py_truediv total (VInt 1) ;; py_mul q (VInt 100)) ;;
        Ok (VDict [("timestamp", VStr (utcnow_isoformat self));
                   ("time_range", VStr "LAST_30_DAYS");
                   ("total_current_cost", VFloat 0);
                   ("optimizations", VList (entries cs));
                   ("total_potential_savings", total);
                   ("savings_percentage", pct);
                   ("priority_recommendations", priority_recommendations)])) /\
     (forall e, fst (generate_cost_report_over self cs w) = Raise e ->
                exc_type e <> "ZeroDivisionError")) /\
  (forall self w, exists d,
     fst (generate_cost_report_over self [("eks", thrifty_analyzer, [VStr "prod"])] w)
     = Ok (VDict d) /\
     dict_get d "total_potential_savings" = Some (VFloat 5) /\
     dict_get d "savings_percentage" = Some (VFloat 500)).
Proof.
  split; [reflexivity|].
  split; [intros savings cost ->; reflexivity|].
  split; [vm_compute; reflexivity|].
  split.
  { intros cost. unfold py_or. destruct (truthy cost) eqn:Ht; [exact Ht | reflexivity]. }
  split.
  { intros savings e. change (py_or get_total_cost (VInt 1)) with (VInt 1).
    apply divide_by_one_is_no_zero_division. }
  split.
  { intros self cs w Hcs.
    destruct (report_over_class self cs w Hcs) as (savings & Hz & ->).
    exists (report_with self (entries cs) savings), savings, (VFloat 0).
    split; [reflexivity|].
    split; [reflexivity|].
    split; [reflexivity|].
    split; [reflexivity|].
    destruct Hz as [->| ->]; vm_compute; reflexivity. }
  split.
  { intros self cs w. rewrite report_result.
    change (initial_report self) with (report_so_far self []).
    destruct (loop_any self cs [] (VInt 0) w eq_refl) as (total & Hn & ->).
    simpl app. exists total.
    split; [exact Hn|].
    split; [apply finish_report_divides|].
    intros e He.
    destruct (finish_report_number self (entries cs) total Hn)
      as [(pct & Hok)|(e' & Hr & Hov & _)].
    - rewrite Hok in He. discriminate He.
    - rewrite Hr in He. injection He as <-. rewrite Hov. discriminate. }
  intros self w. eexists. split; [vm_compute; reflexivity|]. split; reflexivity.
Qed.

Lemma zero_cost_divides_by_one_witness :
  (get_total_cost = VFloat 0 /\ Forall (from_class sample_aws) sample_components) /\
  savings_percentage (VInt 0) get_total_cost
  = (q <- py_truediv (VInt 0) (VInt 1) ;; py_mul q (VInt 100)) /\
  (exists d savings pct,
     fst (generate_cost_report_over sample_aws sample_components empty_world) = Ok (VDict d) /\
     dict_get d "total_current_cost" = Some (VFloat 0) /\
     dict_get d "total_potential_savings" = Some savings /\
     dict_get d "savings_percentage" = Some pct /\
     (q <- py_truediv savings (VInt 1) ;; py_mul q (VInt 100)) = Ok pct) /\
  (exists d,
     fst (generate_cost_report_over sample_aws
            [("eks", thrifty_analyzer, [VStr "prod"])] empty_world)
     = Ok (VDict d) /\
     dict_get d "total_potential_savings" = Some (VFloat 5) /\
     dict_get d "savings_percentage" = Some (VFloat 500)).
Proof.
  destruct zero_cost_divides_by_one as (Hcost & Hpct & _ & _ & _ & Hrep & _ & Hfive).
  split; [split; [exact Hcost | exact sample_components_from_class]|].
  split; [apply Hpct; reflexivity|].
  split; [apply Hrep; exact sample_components_from_class|].
  apply Hfive.
Defined.

(** X10: for analyzers that return plain values, those of [pyval] (None,
    booleans, numbers, strings, lists and mappings of them, with no
    arithmetic of their own), [generate_cost_report] either returns a report
    with the seven keys, an entry for every analysis that was returned and
    a number as total, or raises [OverflowError] from the division after
    the loop, which no [try] covers; an analyzer whose savings are an [int]
    beyond the range of [float] brings that about. *)
Theorem report_over_any_analyzers self cs w :
  ((exists d total,
      fst (generate_cost_report_over self cs w) = Ok (VDict d) /\
      dict_keys d = report_keys /\
      dict_get d "optimizations" = Some (VList (entries cs)) /\
      dict_get d "total_potential_savings" = Some total /\
      is_number total = true) \/
   (exists e, fst (generate_cost_report_over self cs w) = Raise e /\
              exc_type e = "OverflowError")) /\
  fst (generate_cost_report_over self [("eks", lavish_analyzer, [VStr "prod"])] w)
  = Raise (OverflowError "integer division result too large for a float").
Proof.
  split.
  - destruct (report_any self cs w) as [(total & pct & Hn & ->)|H].
    + left. do 2 eexists. repeat split. exact Hn.
    + right. exact H.
  - vm_compute. reflexivity.
Qed.

(** X11: an analysis that is no mapping is listed in the report all the
    same, since the entry is appended before the savings are read, and the
    failure to read them is printed as the component's error. *)
Theorem analysis_that_is_no_mapping_is_listed_and_reported self cs w c analysis :
  In c cs -> outcome c = Ok analysis -> (forall d, analysis <> VDict d) ->
  In (optimization_entry (tag_of c) analysis) (entries cs) /\
  In (error_line (tag_of c)
        (AttributeError ("'" ++ type_name analysis ++ "' object has no attribute 'get'")))
     (stdout (snd (generate_cost_report_over self cs w))) /\
  (forall d, fst (generate_cost_report_over self cs w) = Ok (VDict d) ->
     dict_get d "optimizations" = Some (VList (entries cs))).
Proof.
  intros Hin Ho Hnd. split; [|split].
  - unfold entries. apply in_flat_map. exists c. split; [exact Hin|].
    unfold entry_of. rewrite Ho. left. reflexivity.
  - rewrite report_world.
    destruct (in_split _ _ Hin) as (before & after & ->).
    rewrite fold_left_app.
    change (initial_report self) with (report_so_far self []).
    destruct (loop_any self before [] (VInt 0) w eq_refl) as (total & _ & Hfr).
    destruct (fold_left loop_body before _) as [fr1 w1]. simpl in Hfr. subst fr1.
    rewrite fold_loop_cons.
    match goal with
    | |- context [fold_left loop_body after (?fr, ?w2)] =>
        destruct (loop_world after fr w2) as (_ & _ & lines & ->)
    end.
    rewrite loop_body_world.
    destruct c as [[ty f] args].
    unfold outcome, analyzer_of, args_of in Ho. simpl in Ho.
    unfold try_result, try_body, invoke. cbn [fst]. rewrite Ho.
    change (append_optimization (report_so_far self (entries before))
              (optimization_entry ty analysis))
      with (Ok (report_so_far self (entries before ++ [optimization_entry ty analysis]))).
    cbv beta iota.
    destruct analysis as [|b|z|x|s|l|d]; try (exfalso; exact (Hnd d eq_refl));
      simpl; rewrite <- app_assoc; apply in_or_app; right; left; reflexivity.
  - intros d Hd.
    destruct (report_any self cs w) as [(total & pct & _ & Hr)|(e & Hr & _)];
      rewrite Hr in Hd; [|discriminate].
    injection Hd as <-. reflexivity.
Qed.

Lemma analysis_that_is_no_mapping_is_listed_and_reported_witness :
  let c := ("eks", careless_analyzer, [VStr "prod"]) in
  outcome c = Ok VNone /\
  In (optimization_entry "eks" VNone) (entries [c]) /\
  stdout (snd (generate_cost_report_over sample_aws [c] empty_world))
  = ["Error analyzing eks: 'NoneType' object has no attribute 'get'"] /\
  In (error_line "eks" (AttributeError "'NoneType' object has no attribute 'get'"))
     (stdout (snd (generate_cost_report_over sample_aws [c] empty_world))).
Proof.
  cbv zeta.
  assert (Hin : In ("eks", careless_analyzer, [VStr "prod"])
                  [("eks", careless_analyzer, [VStr "prod"])]) by (left; reflexivity).
  assert (Hnd : forall d, VNone <> VDict d) by (intros d; discriminate).
  destruct (analysis_that_is_no_mapping_is_listed_and_reported sample_aws _ empty_world
              _ VNone Hin eq_refl Hnd) as (Hentry & Hline & _).
  split; [reflexivity|].
  split; [exact Hentry|].
  split; [reflexivity | exact Hline].
Defined.

(** ** The percentage, for any float cost *)

Lemma times_hundred q : py_mul (VFloat q) (VInt 100) = Ok (VFloat (PrimFloat.mul q 100)).
Proof.
  unfold py_mul. cbn [as_number to_float bind]. rewrite float_of_hundred. reflexivity.
Qed.

Lemma truediv_is_a_float a b v : py_truediv a b = Ok v -> exists q, v = VFloat q.
Proof.
  unfold py_truediv.
  destruct (as_number a) as [[x|x]|]; [| |discriminate];
    (destruct (as_number b) as [[y|y]|]; [| |discriminate]);
    unfold to_float; cbn [bind];
    repeat match goal with
           | |- context [float_of_Z ?z] => destruct (float_of_Z z); cbn [bind]
           | |- context [if ?c then _ else _] => destruct c
           end;
    intros H; try discriminate H; injection H as <-; eauto.
Qed.

Lemma float_of_Z_raise z e : float_of_Z z = Raise e -> exc_type e = "OverflowError".
Proof.
  unfold float_of_Z. destruct (is_infinity _); [|discriminate].
  intros H. injection H as <-. reflexivity.
Qed.

(** The three ways a division fails. *)
Lemma truediv_raise a b e :
  py_truediv a b = Raise e ->
  In (exc_type e) ["TypeError"; "OverflowError"; "ZeroDivisionError"].
Proof.
  unfold py_truediv.
  destruct (as_number a) as [[x|x]|]; [| |intros H; injection H as <-; simpl; auto];
    (destruct (as_number b) as [[y|y]|]; [| |intros H; injection H as <-; simpl; auto]);
    unfold to_float; cbn [bind];
    repeat match goal with
           | |- context [float_of_Z ?z] =>
               let E := fresh "E" in
               destruct (float_of_Z z) eqn:E; cbn [bind];
               [|intros H; injection H as <-; rewrite (float_of_Z_raise _ _ E); simpl; auto]
           | |- context [if ?c then _ else _] => destruct c
           end;
    intros H; try discriminate H; injection H as <-; simpl; auto.
Qed.

Lemma divide_by_a_float_is_no_zero_division a f e :
  PrimFloat.eqb f 0 = false ->
  py_truediv a (VFloat f) = Raise e -> exc_type e <> "ZeroDivisionError".
Proof.
  intros Hz. unfold py_truediv. cbn [as_number].
  destruct (as_number a) as [[x|x]|]; unfold to_float; cbn [bind].
  - destruct (float_of_Z x) eqn:E; cbn [bind].
    + rewrite Hz. discriminate.
    + intros H. injection H as <-. rewrite (float_of_Z_raise _ _ E). discriminate.
  - rewrite Hz. discriminate.
  - intros H. injection H as <-. discriminate.
Qed.

(** X12: the test [or 1] covers every float cost.  With a cost of 0.0 or
    -0.0 the division is by 1, and with any other float by the cost itself,
    so the percentage never raises [ZeroDivisionError]: what it can raise is
    a [TypeError] for savings that are no number or an [OverflowError] for
    an [int] beyond the range of [float]; and float savings always give a
    float percentage. *)
Theorem percentage_of_a_float_cost :
  (forall savings cost e,
     savings_percentage savings (VFloat cost) = Raise e ->
     In (exc_type e) ["TypeError"; "OverflowError"]) /\
  (forall savings cost, exists pct,
     savings_percentage (VFloat savings) (VFloat cost) = Ok (VFloat pct)) /\
  savings_percentage (VFloat 5) (VFloat neg_zero) = Ok (VFloat 500).
Proof.
  split; [|split].
  - intros savings cost e. unfold savings_percentage, py_or. cbn [truthy].
    destruct (py_truediv savings _) as [v|e1] eqn:Hd; cbn [bind].
    + destruct (truediv_is_a_float _ _ _ Hd) as (q & ->).
      rewrite times_hundred. discriminate.
    + intros H. injection H as <-.
      assert (Hnz : exc_type e1 <> "ZeroDivisionError").
      { destruct (PrimFloat.eqb cost 0) eqn:Hz; cbn [negb] in Hd.
        - exact (divide_by_one_is_no_zero_division _ _ Hd).
        - exact (divide_by_a_float_is_no_zero_division _ _ _ Hz Hd). }
      destruct (truediv_raise _ _ _ Hd) as [H|[H|[H|[]]]].
      * left. exact H.
      * right. left. exact H.
      * exfalso. apply Hnz. symmetry. exact H.
  - intros savings cost. unfold savings_percentage, py_or. cbn [truthy].
    destruct (PrimFloat.eqb cost 0) eqn:Hz; cbn [negb]; cbv iota;
      unfold py_truediv; cbn [as_number to_float bind].
    + rewrite float_of_one. cbn [bind]. change (PrimFloat.eqb 1 0) with false. cbv iota.
      cbn [bind]. rewrite times_hundred. eexists. reflexivity.
    + rewrite Hz. cbn [bind]. rewrite times_hundred. eexists. reflexivity.
  - vm_compute. reflexivity.
Qed.

Lemma percentage_of_a_float_cost_witness :
  savings_percentage (VStr "none") (VFloat 12.5)
  = Raise (TypeError "unsupported operand type(s) for /: 'str' and 'float'") /\
  In "TypeError" ["TypeError"; "OverflowError"].
Proof.
  split; [reflexivity|].
  exact (proj1 percentage_of_a_float_cost (VStr "none") 12.5%float
           (TypeError "unsupported operand type(s) for /: 'str' and 'float'") eq_refl).
Defined.

(** ** The script *)

(** X13: the script needs its three clients before anything else: when
    the billing, the compute or the relational-storage client cannot be
    made, in this order, the script ends with that exception and has
    printed nothing, although it never calls the first two. *)
Theorem script_needs_its_three_clients rt w :
  (forall e, boto3_client rt "ce" = Raise e -> main rt w = (Raise e, w)) /\
  (forall ce e,
     boto3_client rt "ce" = Ok ce -> boto3_client rt "ec2" = Raise e ->
     main rt w = (Raise e, w)) /\
  (forall ce ec2 e,
     boto3_client rt "ce" = Ok ce -> boto3_client rt "ec2" = Ok ec2 ->
     boto3_client rt "rds" = Raise e ->
     main rt w = (Raise e, w)).
Proof.
  unfold main, CostOptimizer_init. split; [|split].
  - intros e ->. reflexivity.
  - intros ce e -> ->. reflexivity.
  - intros ce ec2 e -> -> ->. reflexivity.
Qed.

Lemma script_needs_its_three_clients_witness :
  boto3_client offline_runtime "ce"
  = Raise (mk_exn "NoRegionError" "You must specify a region for ce") /\
  main offline_runtime empty_world
  = (Raise (mk_exn "NoRegionError" "You must specify a region for ce"), empty_world).
Proof.
  split; [reflexivity|].
  apply (proj1 (script_needs_its_three_clients offline_runtime empty_world)).
  reflexivity.
Defined.

(** X14: once the three clients are made the script succeeds, whatever the
    relational-storage API would answer and whether or not a streaming
    client could be made, for it asks neither.  It prints one line, the
    serialised report, to standard output and nothing to standard error;
    the report has the seven keys and the one entry of the cluster
    analysis. *)
Theorem script_prints_one_document rt w ce ec2 rds :
  boto3_client rt "ce" = Ok ce ->
  boto3_client rt "ec2" = Ok ec2 ->
  boto3_client rt "rds" = Ok rds ->
  exists report analysis,
    main rt w
    = (Ok tt,
       mk_world (stdout w ++ [json_dumps rt (VDict report)]) (stderr w)
                (calls w ++ [(analyze_cluster_usage, [VStr "securazion-production"])])) /\
    dict_keys report = report_keys /\
    dict_get report "timestamp" = Some (VStr (now_isoformat rt)) /\
    analyze_cluster_usage (VStr "securazion-production") = Ok analysis /\
    dict_get report "optimizations" = Some (VList [optimization_entry "eks" analysis]).
Proof.
  intros Hce Hec2 Hrds. unfold main, CostOptimizer_init.
  rewrite Hce, Hec2, Hrds. cbn [bind].
  do 2 eexists. split; [reflexivity|]. repeat split.
Qed.

Lemma script_prints_one_document_witness :
  boto3_client sample_runtime "kafka"
  = Raise (mk_exn "NoCredentialsError" "Unable to locate credentials") /\
  exists report analysis,
    main sample_runtime empty_world
    = (Ok tt,
       mk_world (stdout empty_world ++ [json_dumps sample_runtime (VDict report)])
                (stderr empty_world)
                (calls empty_world
                 ++ [(analyze_cluster_usage, [VStr "securazion-production"])])) /\
    dict_keys report = report_keys /\
    dict_get report "timestamp" = Some (VStr (now_isoformat sample_runtime)) /\
    analyze_cluster_usage (VStr "securazion-production") = Ok analysis /\
    dict_get report "optimizations" = Some (VList [optimization_entry "eks" analysis]).
Proof.
  split; [reflexivity|].
  apply (script_prints_one_document sample_runtime empty_world
           (fun _ => Ok VNone) (fun _ => Ok VNone) sample_describe_db_clusters);
    reflexivity.
Defined.
